(** * TaskQuest: a shallow embedding of the game engine and of the rules
      the task board and the profile panel apply to it.

    Sources embedded here:
    - [types.ts]                       (the data model),
    - [hooks/useGameEngine.ts]         (the localStorage engine),
    - the object-store engine          (the Dexie variant of [useGameEngine]),
    - [components/TaskDashboard.tsx]   (completion and abandonment),
    - [components/Profile.tsx]         (statistics, Monk Mode, import).

    Conventions.  A JavaScript number is either [NaN] or a finite value,
    and finite values are exact rationals: rounding of doubles and the
    two infinities are not represented.  A date string is represented by
    what [Date] makes of it.  React state setters are rendered as state
    passing; timers are rendered as explicit events carrying the time at
    which they happen. *)

From stdpp Require Import base strings list gmap.
From Stdlib Require Import QArith Qround Qabs Lqa Lia.

(* ================================================================== *)
(** * Part I: definitions                                              *)
(* ================================================================== *)

(** ** JavaScript values *)

Module JS.

Inductive number : Type :=
| NaN
| Fin (q : Q).

(** An integer literal. *)
Definition int (z : Z) : number := Fin (inject_Z z).

Definition isNaN (x : number) : bool :=
  match x with NaN => true | Fin _ => false end.

Definition add (x y : number) : number :=
  match x, y with Fin a, Fin b => Fin (a + b) | _, _ => NaN end.

Definition sub (x y : number) : number :=
  match x, y with Fin a, Fin b => Fin (a - b) | _, _ => NaN end.

Definition mul (x y : number) : number :=
  match x, y with Fin a, Fin b => Fin (a * b) | _, _ => NaN end.

(** Every division in the sources is by a non-zero quantity.  A zero
    divisor (an infinity, or NaN for 0/0, in JavaScript) is outside
    the finite model and yields [NaN] here. *)
Definition div (x y : number) : number :=
  match x, y with
  | Fin a, Fin b => if Qeq_bool b 0 then NaN else Fin (a / b)
  | _, _ => NaN
  end.

(** Comparisons: any comparison with [NaN] is false. *)
Definition le (x y : number) : bool :=
  match x, y with Fin a, Fin b => Qle_bool a b | _, _ => false end.

Definition lt (x y : number) : bool :=
  match x, y with Fin a, Fin b => negb (Qle_bool b a) | _, _ => false end.

Definition ge (x y : number) : bool := le y x.
Definition gt (x y : number) : bool := lt y x.

Definition Math_floor (x : number) : number :=
  match x with Fin a => int (Qfloor a) | NaN => NaN end.

(** [Math.round] rounds to the nearest integer, ties towards +infinity. *)
Definition Math_round (x : number) : number :=
  match x with Fin a => int (Qfloor (a + (1 # 2))) | NaN => NaN end.

Definition Math_abs (x : number) : number :=
  match x with Fin a => Fin (Qabs a) | NaN => NaN end.

(** [Array.prototype.includes] on an array of numbers (SameValueZero). *)
Definition same (x y : number) : bool :=
  match x, y with
  | NaN, NaN => true
  | Fin a, Fin b => Qeq_bool a b
  | _, _ => false
  end.

Definition includes (l : list number) (x : number) : bool :=
  existsb (same x) l.

(** The dynamically typed values a field read back from JSON may hold
    (objects and arrays are not needed by the code embedded here). *)
Inductive value : Type :=
| Undefined
| Null
| Bool (b : bool)
| Num (n : number)
| Str (s : string).

Definition truthy_number (n : number) : bool :=
  match n with NaN => false | Fin q => negb (Qeq_bool q 0) end.

Definition truthy (v : value) : bool :=
  match v with
  | Undefined | Null => false
  | Bool b => b
  | Num n => truthy_number n
  | Str s => negb (String.eqb s "")
  end.

(** [typeof v === 'number'] *)
Definition typeof_number (v : value) : bool :=
  match v with Num _ => true | _ => false end.

(** [v === s] for a string [s]. *)
Definition is_string (v : value) (s : string) : bool :=
  match v with Str s' => String.eqb s' s | _ => false end.

(** A date string, abstracted by the way [Date] reads it: the empty
    string (falsy), a non-empty string that does not parse, or a string
    denoting an instant in milliseconds since the epoch. *)
Inductive datestr : Type :=
| Blank
| Unparsable
| Instant (ms : Z).

Definition truthy_date (d : option datestr) : bool :=
  match d with
  | None | Some Blank => false
  | Some _ => true
  end.

(** [new Date(d).getTime()] *)
Definition getTime (d : datestr) : number :=
  match d with Instant ms => int ms | _ => NaN end.

(** [new Date(ms).toISOString()]; parsing it back gives [ms] again. *)
Definition toISOString (ms : Z) : datestr := Instant ms.

End JS.

Import JS.

(** ** The data model ([types.ts]) *)

Inductive TaskType : Type := DAILY | QUEST | BOSS.

Inductive Priority : Type := LOW | MEDIUM | HIGH.

(** The fields the engine inspects dynamically when it reads tasks back
    from storage ([id], [title], [timeSpent], [isRunning], [lastUpdated])
    carry a dynamic [value]; the others carry their declared type, an
    optional field being an [option]. *)
Record Task : Type := mkTask {
  id : value;
  title : value;
  description : string;
  completed : bool;
  exp : number;
  type : TaskType;
  priority : Priority;
  voiceNote : option string;
  reminder : option datestr;
  reminderFired : option bool;
  timeSpent : value;
  isRunning : value;
  lastUpdated : value;
  completedAt : option datestr;
  deleted : option bool;
  deadline : option datestr;
  completedOnTime : option bool
}.

Record MonkMode : Type := mkMonkMode {
  isActive : bool;
  startDate : option datestr;
  endDate : option datestr;
  durationLabel : string;
  totalDays : number;
  minSuccessRate : option number
}.

Inductive Class : Type := Warrior | Mage | Rogue.

Record UserStats : Type := mkUserStats {
  level : number;
  currentExp : number;
  nextLevelExp : number;
  streak : number;
  class : Class;
  displayName : option string;
  avatar : option string;
  monkMode : option MonkMode;
  unlockedMonkModes : list number
}.

Record GuildMember : Type := mkGuildMember {
  member_id : string;
  member_name : string;
  member_level : number;
  member_class : Class;
  isUser : bool
}.

Record Guild : Type := mkGuild {
  guild_id : string;
  guild_name : string;
  code : string;
  members : list GuildMember
}.

(** ** The engine ([hooks/useGameEngine.ts]) *)

Module Engine.

Definition INITIAL_USER : UserStats :=
  {| level := int 1; currentExp := int 0; nextLevelExp := int 100;
     streak := int 0; class := Rogue;
     displayName := Some ""; avatar := Some "";
     monkMode := Some {| isActive := false; startDate := None;
                         endDate := None; durationLabel := "";
                         totalDays := int 0;
                         minSuccessRate := Some (int 50) |};
     unlockedMonkModes := [] |}.

(** What [localStorage.getItem(key)] holds, seen through [JSON.parse]:
    nothing (null or the empty string, both falsy), a non-empty string
    on which [JSON.parse] throws, or a string that parses to [a].
    [JSON.parse] is a function of the string, so two reads of the same
    key in the same synchronous run see the same [stored]. *)
Inductive stored (A : Type) : Type :=
| Missing
| Corrupt
| Parsed (a : A).
Arguments Missing {A}.
Arguments Corrupt {A}.
Arguments Parsed {A} a.

(** The initial value [usePersistent] hands to [useState]. *)
Definition usePersistent {T : Type} (item : stored T) (init : unit -> T) : T :=
  match item with
  | Parsed a => a            (* item ? JSON.parse(item) : ... *)
  | Missing => init tt       (* ... : init() *)
  | Corrupt => init tt       (* catch (e) { return init() } *)
  end.

(** The value stored under ['taskquest_tasks'] once parsed. *)
Inductive payload : Type :=
| NotArray
| TaskArray (ts : list Task).

(** [typeof v === 'number'] guards every numeric read below. *)
Definition as_number (v : value) : number :=
  match v with Num n => n | _ => NaN end.

Definition with_recovered_time (t : Task) (spent : number) (now : Z) : Task :=
  {| id := id t; title := title t; description := description t;
     completed := completed t; exp := exp t; type := type t;
     priority := priority t; voiceNote := voiceNote t;
     reminder := reminder t; reminderFired := reminderFired t;
     timeSpent := Num spent;
     isRunning := isRunning t;
     lastUpdated := Num (int now);
     completedAt := completedAt t; deleted := deleted t;
     deadline := deadline t; completedOnTime := completedOnTime t |}.

Definition with_timeSpent (t : Task) (spent : number) : Task :=
  {| id := id t; title := title t; description := description t;
     completed := completed t; exp := exp t; type := type t;
     priority := priority t; voiceNote := voiceNote t;
     reminder := reminder t; reminderFired := reminderFired t;
     timeSpent := Num spent;
     isRunning := isRunning t;
     lastUpdated := lastUpdated t;
     completedAt := completedAt t; deleted := deleted t;
     deadline := deadline t; completedOnTime := completedOnTime t |}.

(** The body of [parsed.map(t => ...)] in the task initializer. *)
Definition recoverTask (now : Z) (t : Task) : Task :=
  if negb (truthy (id t)) || negb (truthy (title t)) then t
  else if truthy (isRunning t) && truthy (lastUpdated t) then
    let last := if typeof_number (lastUpdated t)
                then as_number (lastUpdated t) else int now in
    let delta := div (sub (int now) last) (int 1000) in
    let safeDelta := if gt delta (int 0) && lt delta (int 31536000)
                     then delta else int 0 in
    let currentSpent :=
      if typeof_number (timeSpent t) && negb (isNaN (as_number (timeSpent t)))
      then as_number (timeSpent t) else int 0 in
    with_recovered_time t (add currentSpent safeDelta) now
  else if negb (typeof_number (timeSpent t)) || isNaN (as_number (timeSpent t))
  then with_timeSpent t (int 0)
  else t.

(** The initializer passed to [usePersistent('taskquest_tasks', ...)];
    it reads the same key again. *)
Definition tasksInitializer (now : Z) (item : stored payload) : list Task :=
  match item with
  | Missing => []                               (* if (!stored) return [] *)
  | Corrupt => []                               (* catch (e) { return [] } *)
  | Parsed NotArray => []                       (* !Array.isArray(parsed) *)
  | Parsed (TaskArray parsed) => map (recoverTask now) parsed
  end.

(** The task state the engine starts with. *)
Definition initialTasks (now : Z) (item : stored payload) : payload :=
  usePersistent item (fun _ => TaskArray (tasksInitializer now item)).

(** The level-up loop.  [fuel] bounds the number of iterations; [None]
    means the bound was reached with the loop condition still true. *)
Fixpoint levelUp (fuel : nat) (currentExp level nextLevelExp : number)
  : option (number * number * number) :=
  if ge currentExp nextLevelExp then
    match fuel with
    | O => None
    | S fuel' =>
        levelUp fuel'
          (sub currentExp nextLevelExp)
          (add level (int 1))
          (Math_floor (mul nextLevelExp (Fin 1.5)))
    end
  else Some (currentExp, level, nextLevelExp).

Definition with_progress (prev : UserStats) (level currentExp nextLevelExp : number)
  : UserStats :=
  {| level := level; currentExp := currentExp; nextLevelExp := nextLevelExp;
     streak := streak prev; class := class prev;
     displayName := displayName prev; avatar := avatar prev;
     monkMode := monkMode prev;
     unlockedMonkModes := unlockedMonkModes prev |}.

(** [addExp(amount)], as the updater applied to the previous state. *)
Definition addExp (fuel : nat) (prev : UserStats) (amount : number)
  : option UserStats :=
  let currentExp := add (currentExp prev) amount in
  let currentExp := if isNaN currentExp then int 0 else currentExp in
  match levelUp fuel currentExp (level prev) (nextLevelExp prev) with
  | Some (currentExp, level, nextLevelExp) =>
      Some (with_progress prev level currentExp nextLevelExp)
  | None => None
  end.

End Engine.

(** ** The object-store engine (the Dexie variant of [useGameEngine]) *)

Module EngineDB.

(** [db.userStats.get('user')], or [INITIAL_USER] when there is no row. *)
Definition userStats (row : option UserStats) : UserStats :=
  match row with Some u => u | None => Engine.INITIAL_USER end.

(** [db.userStats.update('user', {level, currentExp, nextLevelExp})]
    changes the row when there is one and does nothing otherwise. *)
Definition update (row : option UserStats) (level currentExp nextLevelExp : number)
  : option UserStats :=
  match row with
  | Some u => Some (Engine.with_progress u level currentExp nextLevelExp)
  | None => None
  end.

(** [addExp(amount)]: the same loop as in the localStorage engine, with
    no reset of a NaN total; the result is the row after the update. *)
Definition addExp (fuel : nat) (row : option UserStats) (amount : number)
  : option (option UserStats) :=
  let currentExp := add (currentExp (userStats row)) amount in
  match Engine.levelUp fuel currentExp (level (userStats row))
                       (nextLevelExp (userStats row)) with
  | Some (currentExp, level, nextLevelExp) =>
      Some (update row level currentExp nextLevelExp)
  | None => None
  end.

End EngineDB.


(** ** The task board ([components/TaskDashboard.tsx]) *)

Module TaskDashboard.

(** [tasks.find(t => t.id === id)] *)
Definition find_task (tasks : list Task) (id0 : string) : option Task :=
  List.find (fun t => is_string (id t) id0) tasks.

(** The deadline test of [handleCompleteTask]:
    [task.deadline && !isNaN(deadlineDate.getTime()) && now > deadlineDate]. *)
Definition pastDeadline (task : Task) (now : Z) : bool :=
  match deadline task with
  | Some d =>
      truthy_date (Some d) && negb (isNaN (getTime d)) && gt (int now) (getTime d)
  | None => false
  end.

(** What a click on the completion button decides, at time [now], before
    the animation starts: nothing (an early return) when the task is
    already finishing, unknown or completed; otherwise the pair
    [(earnedExp, isOnTime)] captured by the delayed update. *)
Definition handleCompleteTask (finishingTaskIds : list string) (tasks : list Task)
  (id0 : string) (now : Z) : option (number * bool) :=
  if existsb (String.eqb id0) finishingTaskIds then None
  else
    match find_task tasks id0 with
    | None => None
    | Some task =>
        if completed task then None
        else if pastDeadline task now
             then Some (Math_floor (div (exp task) (int 2)), false)
             else Some (exp task, true)
    end.

Definition with_completion (t : Task) (stamp : Z) (isOnTime : bool) (earnedExp : number)
  : Task :=
  {| id := id t; title := title t; description := description t;
     completed := true;
     exp := earnedExp;
     type := type t; priority := priority t; voiceNote := voiceNote t;
     reminder := reminder t; reminderFired := reminderFired t;
     timeSpent := timeSpent t;
     isRunning := Bool false;
     lastUpdated := Undefined;
     completedAt := Some (toISOString stamp);
     deleted := deleted t; deadline := deadline t;
     completedOnTime := Some isOnTime |}.

(** The delayed update, run at time [stamp] on the task list of that
    moment: [onAddExp(earnedExp)] and [setTasks(prev => prev.map(...))]. *)
Definition finishCompletion {A : Type} (onAddExp : number -> A) (id0 : string)
  (earnedExp : number) (isOnTime : bool) (stamp : Z) (prev : list Task)
  : A * list Task :=
  (onAddExp earnedExp,
   map (fun t => if is_string (id t) id0
                 then with_completion t stamp isOnTime earnedExp
                 else t) prev).

Definition with_deletion (t : Task) (stamp : Z) : Task :=
  {| id := id t; title := title t; description := description t;
     completed := completed t; exp := exp t;
     type := type t; priority := priority t; voiceNote := voiceNote t;
     reminder := reminder t; reminderFired := reminderFired t;
     timeSpent := timeSpent t;
     isRunning := Bool false;
     lastUpdated := Undefined;
     completedAt := Some (toISOString stamp);
     deleted := Some true;
     deadline := deadline t; completedOnTime := completedOnTime t |}.

(** [confirmDelete], at time [stamp]: the new task list and the new value
    of [taskToDelete]. *)
Definition confirmDelete (taskToDelete : option string) (stamp : Z) (prev : list Task)
  : list Task * option string :=
  match taskToDelete with
  | Some id0 =>
      if negb (String.eqb id0 "")
      then (map (fun t => if is_string (id t) id0 then with_deletion t stamp else t) prev,
            None)
      else (prev, taskToDelete)
  | None => (prev, taskToDelete)
  end.

End TaskDashboard.

(** ** The profile panel ([components/Profile.tsx]) *)

Module Profile.

Record Milestone : Type := mkMilestone { l : string; d : Z; rank : string }.

Definition MONK_MILESTONES : list Milestone :=
  [ mkMilestone "7 Days" 7 "Novice";
    mkMilestone "28 Days" 28 "Apprentice";
    mkMilestone "3 Months" 90 "Adept";
    mkMilestone "6 Months" 180 "Expert";
    mkMilestone "1 Year" 365 "Master";
    mkMilestone "5 Years" 1825 "Grandmaster" ].

(** Truthiness of an optional boolean, and [flag !== false]. *)
Definition is_set (flag : option bool) : bool :=
  match flag with Some true => true | _ => false end.

Definition not_false (flag : option bool) : bool :=
  match flag with Some false => false | _ => true end.

Definition onTimeTask (t : Task) : bool :=
  completed t && not_false (completedOnTime t).

Definition completedTasks (tasks : list Task) : list Task :=
  List.filter completed tasks.

Definition abandonedTasks (tasks : list Task) : list Task :=
  List.filter (fun t => is_set (deleted t)) tasks.

Definition totalAttempts (tasks : list Task) : nat :=
  (length (completedTasks tasks) + length (abandonedTasks tasks))%nat.

Definition onTimeQuests (tasks : list Task) : list Task :=
  List.filter onTimeTask tasks.

(** [Math.round((onTime / total) * 100)] *)
Definition percentage (onTime total : nat) : number :=
  Math_round (mul (div (int (Z.of_nat onTime)) (int (Z.of_nat total))) (int 100)).

Definition successRate (tasks : list Task) : number :=
  if (0 <? totalAttempts tasks)%nat
  then percentage (length (onTimeQuests tasks)) (totalAttempts tasks)
  else int 100.

Record SessionStats : Type := mkSessionStats {
  total : nat;
  onTime : nat;
  rate : number
}.

(** The filter of [getSessionStats], for a session started at [startDate]. *)
Definition inSession (startDate : datestr) (t : Task) : bool :=
  match completedAt t with
  | Some c =>
      truthy_date (Some c)
      && negb (isNaN (getTime c))
      && (completed t || is_set (deleted t))
      && gt (getTime c) (getTime startDate)
  | None => false
  end.

Definition getSessionStats (stats : UserStats) (tasks : list Task) : SessionStats :=
  match monkMode stats with
  | Some m =>
      match startDate m with
      | Some sd =>
          if negb (truthy_date (Some sd)) then mkSessionStats 0 0 (int 100)
          else if isNaN (getTime sd) then mkSessionStats 0 0 (int 100)
          else
            let sessionTasks := List.filter (inSession sd) tasks in
            let total := length sessionTasks in
            if (total =? 0)%nat then mkSessionStats 0 0 (int 100)
            else
              let onTime := length (List.filter onTimeTask sessionTasks) in
              mkSessionStats total onTime (percentage onTime total)
      | None => mkSessionStats 0 0 (int 100)
      end
  | None => mkSessionStats 0 0 (int 100)
  end.

(** [stats.monkMode?.minSuccessRate || 50] *)
Definition minRate (stats : UserStats) : number :=
  match monkMode stats with
  | Some m =>
      match minSuccessRate m with
      | Some r => if truthy_number r then r else int 50
      | None => int 50
      end
  | None => int 50
  end.

(** One bar of the seven-day graph, for the local day [dayStart..dayEnd]. *)
Definition inDay (dayStart dayEnd : Z) (t : Task) : bool :=
  match completedAt t with
  | Some c =>
      truthy_date (Some c)
      && negb (isNaN (getTime c))
      && ge (getTime c) (int dayStart) && le (getTime c) (int dayEnd)
  | None => false
  end.

Definition dayTasks (dayStart dayEnd : Z) (tasks : list Task) : list Task :=
  List.filter (inDay dayStart dayEnd) tasks.

Definition dayRate (dayStart dayEnd : Z) (tasks : list Task) : number * nat :=
  let dayTasks := dayTasks dayStart dayEnd tasks in
  if (length dayTasks =? 0)%nat then (int 0, 0%nat)
  else (percentage (length (List.filter onTimeTask dayTasks)) (length dayTasks),
        length dayTasks).

(** The component's own state: the armed flag of the breach button, the
    time at which the live confirmation timer (if any) is due, and the
    failure dialog. *)
Record UI : Type := mkUI {
  confirmBreach : bool;
  breachTimeout : option Z;
  showFailureDialog : bool
}.

(** What [alert(...)] shows. *)
Inductive notice : Type :=
| ProtocolComplete (durationLabel : string).

(** [{ ...prev.monkMode!, isActive: false }].  Spreading an absent record
    leaves every other field undefined; the declared types have no such
    value, and the case does not arise where the code below calls it. *)
Definition inactive (m : option MonkMode) : MonkMode :=
  match m with
  | Some m =>
      {| isActive := false; startDate := startDate m; endDate := endDate m;
         durationLabel := durationLabel m; totalDays := totalDays m;
         minSuccessRate := minSuccessRate m |}
  | None =>
      {| isActive := false; startDate := None; endDate := None;
         durationLabel := ""; totalDays := NaN; minSuccessRate := None |}
  end.

Definition with_monkMode (prev : UserStats) (m : MonkMode) : UserStats :=
  {| level := level prev; currentExp := currentExp prev;
     nextLevelExp := nextLevelExp prev; streak := streak prev;
     class := class prev; displayName := displayName prev;
     avatar := avatar prev;
     monkMode := Some m;
     unlockedMonkModes := unlockedMonkModes prev |}.

Definition with_unlocked (prev : UserStats) (newUnlocked : list number) : UserStats :=
  {| level := level prev; currentExp := currentExp prev;
     nextLevelExp := nextLevelExp prev; streak := streak prev;
     class := class prev; displayName := displayName prev;
     avatar := avatar prev;
     monkMode := monkMode prev;
     unlockedMonkModes := newUnlocked |}.

(** [stats.monkMode?.isActive && stats.monkMode.startDate] *)
Definition activeSession (stats : UserStats) : bool :=
  match monkMode stats with
  | Some m => isActive m && truthy_date (startDate m)
  | None => false
  end.

(** The effect that watches the task collection. *)
Definition failureEffect (tasks : list Task) (st : UserStats * UI) : UserStats * UI :=
  let '(stats, ui) := st in
  let sessionStats := getSessionStats stats tasks in
  if activeSession stats && (0 <? total sessionStats)%nat then
    if lt (rate sessionStats) (minRate stats) then
      (with_monkMode stats (inactive (monkMode stats)),
       {| confirmBreach := confirmBreach ui;
          breachTimeout := breachTimeout ui;
          showFailureDialog := true |})
    else st
  else st.

(** The [forEach] over the milestones. *)
Definition unlock (elapsedDays : number) (acc : list number * bool) (m : Milestone)
  : list number * bool :=
  let '(newUnlocked, updatesNeeded) := acc in
  if ge elapsedDays (int (d m)) && negb (includes newUnlocked (int (d m)))
  then (newUnlocked ++ [int (d m)], true)
  else (newUnlocked, updatesNeeded).

(** [Math.abs(now - start.getTime()) / (1000 * 60 * 60 * 24)] *)
Definition elapsedDays (now : Z) (start : number) : number :=
  div (Math_abs (sub (int now) start)) (int (1000 * 60 * 60 * 24)).

(** The effect that runs on each clock tick, at time [now]: the new
    statistics and the notice shown, if any. *)
Definition milestoneEffect (now : Z) (stats : UserStats) : UserStats * option notice :=
  match monkMode stats with
  | Some m =>
      match startDate m with
      | Some sd =>
          if isActive m && truthy_date (Some sd) then
            let start := getTime sd in
            if isNaN start then (stats, None)
            else
              let elapsedDays := elapsedDays now start in
              let '(newUnlocked, updatesNeeded) :=
                fold_left (unlock elapsedDays) MONK_MILESTONES
                          (unlockedMonkModes stats, false) in
              if ge elapsedDays (totalDays m) then
                (with_unlocked (with_monkMode stats (inactive (monkMode stats)))
                               newUnlocked,
                 Some (ProtocolComplete (durationLabel m)))
              else if updatesNeeded then (with_unlocked stats newUnlocked, None)
              else (stats, None)
          else (stats, None)
      | None => (stats, None)
      end
  | None => (stats, None)
  end.

Definition startMonkMode (now : Z) (days : Z) (label : string) (st : UserStats * UI)
  : UserStats * UI :=
  let '(prev, ui) := st in
  (with_monkMode prev
     {| isActive := true;
        startDate := Some (toISOString now);
        endDate := Some (toISOString (now + days * 24 * 60 * 60 * 1000));
        durationLabel := label;
        totalDays := int days;
        minSuccessRate := Some (int 50) |},
   {| confirmBreach := confirmBreach ui;
      breachTimeout := breachTimeout ui;
      showFailureDialog := false |}).

(** A click on the breach button at time [now].  Arming clears the live
    timer, if any, and starts one due 3000 ms later; committing leaves
    the timer alone. *)
Definition handleBreachClick (now : Z) (st : UserStats * UI) : UserStats * UI :=
  let '(prev, ui) := st in
  if confirmBreach ui then
    (with_monkMode prev (inactive (monkMode prev)),
     {| confirmBreach := false;
        breachTimeout := breachTimeout ui;
        showFailureDialog := showFailureDialog ui |})
  else
    (prev,
     {| confirmBreach := true;
        breachTimeout := Some (now + 3000)%Z;
        showFailureDialog := showFailureDialog ui |}).

(** The timer callback, run by the event loop at time [now].  A timer
    never runs before it is due; [None] means there is no timer to run. *)
Definition breachTimeoutFires (now : Z) (st : UserStats * UI) : option (UserStats * UI) :=
  let '(stats, ui) := st in
  match breachTimeout ui with
  | Some due =>
      if (due <=? now)%Z then
        Some (stats,
              {| confirmBreach := false;
                 breachTimeout := None;
                 showFailureDialog := showFailureDialog ui |})
      else None
  | None => None
  end.

End Profile.

(** ** The object store ([db.ts]) and the import of a save document
       ([handleImport], in the object-store variant of the profile panel) *)

Module Store.

(** The three tables of [TaskQuestDB], each keyed by its [id]. *)
Record DB : Type := mkDB {
  tasks : gmap string Task;
  userStats : gmap string UserStats;
  guild : gmap string Guild
}.

(** [table.bulkAdd(items)]: every item needs a key of its own; an item
    without one, or with a key already in the table, makes the call fail.
    Keys are the strings the application generates for [id]. *)
Fixpoint bulkAdd (items : list Task) (table : gmap string Task)
  : option (gmap string Task) :=
  match items with
  | [] => Some table
  | t :: rest =>
      match id t with
      | Str key =>
          match table !! key with
          | None => bulkAdd rest (<[key := t]> table)
          | Some _ => None
          end
      | _ => None
      end
  end.

(** [db.transaction('rw', ..., body)]: all of [body] or nothing. *)
Definition transaction (body : DB -> option DB) (db : DB) : option DB :=
  body db.

(** A save document as [JSON.parse] returns it.  A field is [None] when
    it is absent or falsy; a field that is present has the shape
    [handleExport] writes. *)
Record SaveDoc : Type := mkSaveDoc {
  doc_tasks : option (list Task);
  doc_user : option UserStats;
  doc_guild : option Guild
}.

(** The text of the chosen file, seen through [JSON.parse]: text on which
    it throws (or whose value has no fields to read), or a document. *)
Inductive parsedFile : Type :=
| Unreadable
| Document (data : SaveDoc).

Inductive alert : Type :=
| ImportSucceeded      (* "Save data imported successfully! Reloading..." *)
| ImportFailed.        (* "Failed to import save data. File might be corrupted." *)

Record Outcome : Type := mkOutcome {
  db_after : DB;
  alerted : option alert;
  reloaded : bool
}.

(** The body of the import transaction: the three [clear()] calls, then
    [bulkAdd(data.tasks)], [put({...data.user, id: 'user'})] and, when
    the document has a guild, [put(data.guild)]. *)
Definition replaceAll (tasks0 : list Task) (user : UserStats) (guild0 : option Guild)
  (db : DB) : option DB :=
  let cleared := {| tasks := ∅; userStats := ∅; guild := ∅ |} in
  match bulkAdd tasks0 (tasks cleared) with
  | Some tasks' =>
      Some {| tasks := tasks';
              userStats := <["user" := user]> (userStats cleared);
              guild := match guild0 with
                       | Some g => <[guild_id g := g]> (guild cleared)
                       | None => guild cleared
                       end |}
  | None => None
  end.

(** [handleImport]: [file] is the chosen file ([None] when the dialog was
    dismissed), [confirmed] the answer to the confirmation dialog. *)
Definition handleImport (file : option parsedFile) (confirmed : bool) (db : DB)
  : Outcome :=
  match file with
  | None => mkOutcome db None false
  | Some Unreadable => mkOutcome db (Some ImportFailed) false
  | Some (Document data) =>
      match doc_tasks data, doc_user data with
      | Some tasks0, Some user =>
          if confirmed then
            match transaction (replaceAll tasks0 user (doc_guild data)) db with
            | Some db' => mkOutcome db' (Some ImportSucceeded) true
            | None => mkOutcome db (Some ImportFailed) false
            end
          else mkOutcome db None false
      | _, _ => mkOutcome db (Some ImportFailed) false
      end
  end.

End Store.

(** ** Specification vocabulary *)

Module Spec.

(** A finite sequence of calls of a state updater that may fail to
    return; the result lists the state after each call. *)
Fixpoint calls {St : Type} (step : St -> number -> option St) (s : St)
  (amounts : list number) : option (list St) :=
  match amounts with
  | [] => Some []
  | amount :: rest =>
      match step s amount with
      | Some s' =>
          match calls step s' rest with
          | Some trace => Some (s' :: trace)
          | None => None
          end
      | None => None
      end
  end.

(** [0 <= currentExp < nextLevelExp] *)
Definition in_range (s : UserStats) : Prop :=
  match currentExp s, nextLevelExp s with
  | Fin c, Fin n => (0 <= c /\ c < n)%Q
  | _, _ => False
  end.

(** [nextLevelExp >= 1], as in every state the engine reaches from
    [INITIAL_USER], whose thresholds are integers from 100 upwards. *)
Definition threshold_ok (s : UserStats) : Prop :=
  match nextLevelExp s with
  | Fin n => (1 <= n)%Q
  | NaN => False
  end.

(** A finite amount that is not negative. *)
Definition nonneg (amount : number) : Prop :=
  match amount with
  | Fin a => (0 <= a)%Q
  | NaN => False
  end.

(** The level did not decrease from [before] to [after]. *)
Definition not_decreased (before after : number) : Prop :=
  match before, after with
  | Fin l, Fin l' => (l <= l')%Q
  | NaN, NaN => True
  | _, _ => False
  end.

(** Every state of [trace], reached in turn from [s], is in range with a
    threshold of at least 1, at a level not below its predecessor's. *)
Fixpoint preserved {St : Type} (view : St -> UserStats) (s : St) (trace : list St)
  : Prop :=
  match trace with
  | [] => True
  | s' :: rest =>
      in_range (view s') /\ threshold_ok (view s')
      /\ not_decreased (level (view s)) (level (view s'))
      /\ preserved view s' rest
  end.

(** The state [s] with its running total replaced by [total]. *)
Definition with_total (s : UserStats) (total : number) : UserStats :=
  Engine.with_progress s (level s) total (nextLevelExp s).

(** "The task has a deadline that has already passed" at time [now]. *)
Definition deadline_passed (task : Task) (now : Z) : bool :=
  match deadline task with
  | Some (Instant due) => (due <? now)%Z
  | _ => false
  end.

(** [round(onTime / (completions + abandonments) * 100)], and 100 when
    the denominator is zero; on integers the rounding is
    [floor((200 * onTime + n) / (2 * n))]. *)
Definition success_rate (onTimeCompletions completions abandonments : nat) : Z :=
  let n := Z.of_nat (completions + abandonments) in
  if (n =? 0)%Z then 100%Z
  else ((200 * Z.of_nat onTimeCompletions + n) / (2 * n))%Z.

(** "Completed or abandoned, with a completion timestamp after" the
    instant [start]. *)
Definition in_session (start : Z) (t : Task) : bool :=
  match completedAt t with
  | Some (Instant at_) =>
      (completed t || Profile.is_set (deleted t)) && (start <? at_)%Z
  | _ => false
  end.

(** "A milestone duration that is at most the elapsed days and not yet in
    the list" [unlocked]. *)
Definition newly_reached (elapsed : number) (unlocked : list number)
  (ms : Profile.Milestone) : bool :=
  ge elapsed (int (Profile.d ms)) && negb (includes unlocked (int (Profile.d ms))).

End Spec.

(** ** Sample data *)

Module Examples.

(** A quest as [addTask] creates it: not started, reminder synchronised
    with the deadline. *)
Definition quest (id0 : string) (reward : Z) (due : option datestr) : Task :=
  {| id := Str id0; title := Str "quest"; description := "Added manually";
     completed := false; exp := int reward; type := QUEST; priority := MEDIUM;
     voiceNote := None; reminder := due; reminderFired := None;
     timeSpent := Num (int 0); isRunning := Bool false; lastUpdated := Undefined;
     completedAt := None; deleted := None; deadline := due;
     completedOnTime := None |}.

(** The same quest with its stopwatch started at 1000 ms, 10 s on it. *)
Definition running : Task :=
  {| id := Str "7"; title := Str "quest"; description := "Added manually";
     completed := false; exp := int 50; type := QUEST; priority := MEDIUM;
     voiceNote := None; reminder := None; reminderFired := None;
     timeSpent := Num (int 10); isRunning := Bool true;
     lastUpdated := Num (int 1000);
     completedAt := None; deleted := None; deadline := None;
     completedOnTime := None |}.

(** Three quests completed on time, one completed late, one abandoned. *)
Definition history : list Task :=
  [ TaskDashboard.with_completion (quest "1" 50 None) 5000 true (int 50);
    TaskDashboard.with_completion (quest "2" 50 None) 6000 true (int 50);
    TaskDashboard.with_completion (quest "3" 100 None) 7000 true (int 100);
    TaskDashboard.with_completion (quest "4" 100 (Some (Instant 1000))) 8000 false (int 50);
    TaskDashboard.with_deletion (quest "5" 25 None) 9000 ].

(** One day, in milliseconds. *)
Definition day : Z := 1000 * 60 * 60 * 24.

(** The profile panel at rest, and a seven-day session started on the
    initial record at 1000 ms. *)
Definition idle : Profile.UI :=
  {| Profile.confirmBreach := false; Profile.breachTimeout := None;
     Profile.showFailureDialog := false |}.

Definition novice : UserStats * Profile.UI :=
  Profile.startMonkMode 1000 7 "7 Days" (Engine.INITIAL_USER, idle).

(** The session record of [novice]. *)
Definition sevenDays : MonkMode :=
  {| isActive := true; startDate := Some (Instant 1000);
     endDate := Some (Instant (1000 + 7 * 24 * 60 * 60 * 1000));
     durationLabel := "7 Days"; totalDays := int 7;
     minSuccessRate := Some (int 50) |}.

End Examples.

(** ** Coercions of dynamic values *)

Module Coerce.

Section Platform.

(** [Number(s)] on a string and [String(n)] on a number are the
    platform's. *)
Variable StringToNumber : string -> number.
Variable NumberToString : number -> string.

Definition ToNumber (v : value) : number :=
  match v with
  | Undefined => NaN
  | Null => int 0
  | Bool b => if b then int 1 else int 0
  | Num n => n
  | Str s => StringToNumber s
  end.

(** [v || d] *)
Definition or_else (v d : value) : value := if truthy v then v else d.

(** [a - b] *)
Definition minus (a b : value) : number := sub (ToNumber a) (ToNumber b).

(** [v + n], where [n] is a number: concatenation when [v] is a string. *)
Definition plus_number (v : value) (n : number) : value :=
  match v with
  | Str s => Str (s ++ NumberToString n)
  | _ => Num (add (ToNumber v) n)
  end.

End Platform.

(** [a !== b] on numbers: NaN differs from everything, itself included. *)
Definition differ (a b : number) : bool :=
  match a, b with
  | Fin x, Fin y => negb (Qeq_bool x y)
  | _, _ => true
  end.

(** [a % b] on numbers, the remainder having the sign of [a]; as for
    [div], a zero divisor is outside the finite model. *)
Definition rem (a b : number) : number :=
  match a, b with
  | Fin x, Fin y =>
      if Qeq_bool y 0 then NaN
      else
        let q := (x / y)%Q in
        let t := if Qle_bool 0 q then Qfloor q else Qceiling q in
        Fin (x - y * inject_Z t)
  | _, _ => NaN
  end.

Definition Math_min (a b : number) : number :=
  match a, b with
  | Fin x, Fin y => if Qle_bool x y then Fin x else Fin y
  | _, _ => NaN
  end.

Definition Math_max (a b : number) : number :=
  match a, b with
  | Fin x, Fin y => if Qle_bool x y then Fin y else Fin x
  | _, _ => NaN
  end.

End Coerce.

(** ** The game loop ([hooks/useGameEngine.ts], the one-second tick) *)

Module GameLoop.

(** [new Notification(`Quest Due: ${title}`, { body })] *)
Inductive notification : Type :=
| QuestDue (title : value) (body : string).

Definition with_timer (t : Task) (spent : value) (now : Z) : Task :=
  {| id := id t; title := title t; description := description t;
     completed := completed t; exp := exp t; type := type t;
     priority := priority t; voiceNote := voiceNote t;
     reminder := reminder t; reminderFired := reminderFired t;
     timeSpent := spent;
     isRunning := isRunning t;
     lastUpdated := Num (int now);
     completedAt := completedAt t; deleted := deleted t;
     deadline := deadline t; completedOnTime := completedOnTime t |}.

Definition with_reminderFired (t : Task) : Task :=
  {| id := id t; title := title t; description := description t;
     completed := completed t; exp := exp t; type := type t;
     priority := priority t; voiceNote := voiceNote t;
     reminder := reminder t; reminderFired := Some true;
     timeSpent := timeSpent t;
     isRunning := isRunning t;
     lastUpdated := lastUpdated t;
     completedAt := completedAt t; deleted := deleted t;
     deadline := deadline t; completedOnTime := completedOnTime t |}.

(** [t.reminder && !t.reminderFired] *)
Definition reminderPending (t : Task) : bool :=
  truthy_date (reminder t) && negb (Profile.is_set (reminderFired t)).

(** [new Date(t.reminder).getTime()] *)
Definition reminderTime (t : Task) : number :=
  match reminder t with Some r => getTime r | None => NaN end.

(** The test of [current.some(...)]. *)
Definition needsWork (now : Z) (t : Task) : bool :=
  truthy (isRunning t) || (reminderPending t && le (reminderTime t) (int now)).

Section Tick.

Variable StringToNumber : string -> number.
Variable NumberToString : number -> string.

(** The seconds the stopwatch branch adds for a stamp [lastUpdated]:
    [last = lastUpdated || now], [delta = (now - last) / 1000],
    [safeDelta = delta > 0 ? delta : 0]. *)
Definition safeDelta (now : Z) (lastUpdated : value) : number :=
  let last := Coerce.or_else lastUpdated (Num (int now)) in
  let delta := div (Coerce.minus StringToNumber (Num (int now)) last) (int 1000) in
  if gt delta (int 0) then delta else int 0.

(** The body of [current.map(t => ...)]: the new task and the
    notifications it raises; [granted] is
    [Notification.permission === 'granted']. *)
Definition tickTask (now : Z) (granted : bool) (t : Task)
  : Task * list notification :=
  if truthy (isRunning t) then
    (with_timer t
       (Coerce.plus_number StringToNumber NumberToString
          (Coerce.or_else (timeSpent t) (Num (int 0)))
          (safeDelta now (lastUpdated t)))
       now,
     [])
  else if reminderPending t then
    if negb (isNaN (reminderTime t)) && le (reminderTime t) (int now) then
      (with_reminderFired t,
       if granted
       then [QuestDue (title t)
                      (if String.eqb (description t) ""
                       then "Time to complete this quest!" else description t)]
       else [])
    else (t, [])
  else (t, []).

(** The updater the interval hands to [setTasks], run at time [now]. *)
Definition tick (now : Z) (granted : bool) (current : list Task)
  : list Task * list notification :=
  if negb (existsb (needsWork now) current) then (current, [])
  else (map (fun t => fst (tickTask now granted t)) current,
        concat (map (fun t => snd (tickTask now granted t)) current)).

End Tick.

End GameLoop.

(** ** More of the task board ([components/TaskDashboard.tsx]) and the
       history view ([components/CompletedTasks.tsx]) *)

Module Board.

(** [priority === HIGH ? 100 : priority === MEDIUM ? 50 : 25] *)
Definition reward (p : Priority) : number :=
  match p with
  | HIGH => int 100
  | MEDIUM => int 50
  | LOW => int 25
  end.

(** [s || undefined], for the deadline typed into the form. *)
Definition or_undefined (s : datestr) : option datestr :=
  if truthy_date (Some s) then Some s else None.

Section Form.

(** [String.prototype.trim] and [String(n)] are the platform's. *)
Variable trim : string -> string.
Variable NumberToString : number -> string.

(** [addTask(title)] at time [now], with the priority and deadline the
    form holds. *)
Definition addTask (now : Z) (title0 : string) (newTaskPriority : Priority)
  (newTaskDeadline : datestr) (tasks : list Task) : list Task :=
  if String.eqb (trim title0) "" then tasks
  else
    {| id := Str (NumberToString (int now));
       title := Str (if String.eqb title0 "" then "New Quest" else title0);
       description := "Added manually";
       completed := false;
       exp := reward newTaskPriority;
       type := QUEST;
       priority := newTaskPriority;
       voiceNote := None;
       reminder := or_undefined newTaskDeadline;
       reminderFired := None;
       timeSpent := Num (int 0);
       isRunning := Bool false;
       lastUpdated := Undefined;
       completedAt := None;
       deleted := None;
       deadline := or_undefined newTaskDeadline;
       completedOnTime := None |} :: tasks.

End Form.

Definition with_toggle (t : Task) (now : Z) : Task :=
  let isStarting := negb (truthy (isRunning t)) in
  {| id := id t; title := title t; description := description t;
     completed := completed t; exp := exp t; type := type t;
     priority := priority t; voiceNote := voiceNote t;
     reminder := reminder t; reminderFired := reminderFired t;
     timeSpent := timeSpent t;
     isRunning := Bool isStarting;
     lastUpdated := if isStarting then Num (int now) else Undefined;
     completedAt := completedAt t; deleted := deleted t;
     deadline := deadline t; completedOnTime := completedOnTime t |}.

(** [toggleTimer(id)] at time [now]. *)
Definition toggleTimer (id0 : string) (now : Z) (prev : list Task) : list Task :=
  map (fun t => if is_string (id t) id0 then with_toggle t now else t) prev.

(** [finishingTaskIds.includes(t.id)] *)
Definition isFinishing (finishingTaskIds : list string) (t : Task) : bool :=
  existsb (is_string (id t)) finishingTaskIds.

(** The tasks the board shows. *)
Definition activeTasks (finishingTaskIds : list string) (tasks : list Task) : list Task :=
  List.filter (fun t => (negb (completed t) && negb (Profile.is_set (deleted t)))
                        || isFinishing finishingTaskIds t) tasks.

(** [task.deadline && new Date() > new Date(task.deadline) && !isFinishing] *)
Definition isOverdue (now : Z) (finishingTaskIds : list string) (task : Task) : bool :=
  match deadline task with
  | Some d =>
      truthy_date (Some d) && gt (int now) (getTime d)
      && negb (isFinishing finishingTaskIds task)
  | None => false
  end.

(** The reward the card of a task shows. *)
Definition shownExp (now : Z) (finishingTaskIds : list string) (task : Task) : number :=
  if isOverdue now finishingTaskIds task
  then Math_floor (div (exp task) (int 2))
  else exp task.

End Board.

Module History.

(** The tasks the history view shows, before it sorts them. *)
Definition historyTasks (tasks : list Task) : list Task :=
  List.filter (fun t => completed t || Profile.is_set (deleted t)) tasks.

End History.

(** ** More of the profile panel ([components/Profile.tsx]) *)

Module Stats.

(** The loop of [getTotalLifetimeXP]; [fuel] bounds its iterations. *)
Fixpoint lifetimeLoop (fuel : nat) (l total required level : number) : option number :=
  if lt l level then
    match fuel with
    | O => None
    | S fuel' =>
        lifetimeLoop fuel' (add l (int 1)) (add total required)
                     (Math_floor (mul required (Fin 1.5))) level
    end
  else Some total.

Definition getTotalLifetimeXP (fuel : nat) (stats : UserStats) : option number :=
  match lifetimeLoop fuel (int 1) (int 0) (int 100) (level stats) with
  | Some total => Some (add total (currentExp stats))
  | None => None
  end.

Record Countdown : Type := mkCountdown {
  days : number;
  hours : number;
  minutes : number
}.

(** [formatCountdown()], with the clock of the panel at [monkModeNow]. *)
Definition formatCountdown (monkModeNow : Z) (stats : UserStats) : option Countdown :=
  match monkMode stats with
  | Some m =>
      match startDate m with
      | Some sd =>
          if negb (truthy_date (Some sd)) || negb (isActive m) then None
          else
            let start := getTime sd in
            if isNaN start then None
            else
              let elapsed := sub (int monkModeNow) start in
              Some {| days := Math_floor (div elapsed (int (1000 * 60 * 60 * 24)));
                      hours := Math_floor
                                 (div (Coerce.rem elapsed (int (1000 * 60 * 60 * 24)))
                                      (int (1000 * 60 * 60)));
                      minutes := Math_floor
                                   (div (Coerce.rem elapsed (int (1000 * 60 * 60)))
                                        (int (1000 * 60))) |}
      | None => None
      end
  | None => None
  end.

(** [timeProgress], then [safeTimeProgress]. *)
Definition timeProgress (monkModeNow : Z) (stats : UserStats) : number :=
  match monkMode stats with
  | Some m =>
      match startDate m, endDate m with
      | Some sd, Some ed =>
          if truthy_date (Some sd) && truthy_date (Some ed) then
            Coerce.Math_min (int 100)
              (Coerce.Math_max (int 0)
                 (mul (div (sub (int monkModeNow) (getTime sd))
                           (sub (getTime ed) (getTime sd)))
                      (int 100)))
          else int 0
      | _, _ => int 0
      end
  | None => int 0
  end.

Definition safeTimeProgress (monkModeNow : Z) (stats : UserStats) : number :=
  if isNaN (timeProgress monkModeNow stats) then int 0
  else timeProgress monkModeNow stats.

End Stats.

(** ** The guild hall ([components/MultiplayerHub.tsx]) *)

Module GuildHall.

Definition with_members (g : Guild) (ms : list GuildMember) : Guild :=
  {| guild_id := guild_id g; guild_name := guild_name g; code := code g;
     members := ms |}.

(** [{ ...m, level: userStats.level, class: userStats.class }] *)
Definition mirrored (userStats : UserStats) (m : GuildMember) : GuildMember :=
  {| member_id := member_id m; member_name := member_name m;
     member_level := level userStats; member_class := class userStats;
     isUser := isUser m |}.

Definition same_class (a b : Class) : bool :=
  match a, b with
  | Warrior, Warrior | Mage, Mage | Rogue, Rogue => true
  | _, _ => false
  end.

(** The effect that mirrors the user's level and class into the guild:
    the guild it hands to [setGuild], or [None] when it does not write. *)
Definition syncUser (userStats : UserStats) (guild : option Guild) : option Guild :=
  match guild with
  | Some g =>
      let updatedMembers :=
        map (fun m => if isUser m then mirrored userStats m else m) (members g) in
      match List.find isUser (members g) with
      | Some currentUserMember =>
          if Coerce.differ (member_level currentUserMember) (level userStats)
             || negb (same_class (member_class currentUserMember) (class userStats))
          then Some (with_members g updatedMembers)
          else None
      | None => None
      end
  | None => None
  end.

Section Form.

Variable trim : string -> string.
Variable NumberToString : number -> string.
Variable parseInt : string -> number.

(** [createGuild()] at time [now]; [code0] is the invite code drawn from
    [Math.random()].  [None]: nothing is written. *)
Definition createGuild (now : Z) (code0 : string) (newGuildName : string)
  (userStats : UserStats) : option Guild :=
  if String.eqb (trim newGuildName) "" then None
  else Some {| guild_id := NumberToString (int now);
               guild_name := newGuildName;
               code := code0;
               members := [ {| member_id := "user"; member_name := "You";
                               member_level := level userStats;
                               member_class := class userStats;
                               isUser := true |} ] |}.

(** [addMember()] at time [now]. *)
Definition addMember (now : Z) (newMemberName newMemberLevel : string)
  (newMemberClass : Class) (guild : option Guild) : option Guild :=
  match guild with
  | Some g =>
      if String.eqb (trim newMemberName) "" then None
      else
        Some (with_members g
                (members g ++
                 [ {| member_id := NumberToString (int now);
                      member_name := newMemberName;
                      member_level := if truthy_number (parseInt newMemberLevel)
                                      then parseInt newMemberLevel else int 1;
                      member_class := newMemberClass;
                      isUser := false |} ]))
  | None => None
  end.

End Form.

(** [removeMember(id)] *)
Definition removeMember (id0 : string) (guild : option Guild) : option Guild :=
  match guild with
  | Some g =>
      Some (with_members g
              (List.filter (fun m => negb (String.eqb (member_id m) id0)) (members g)))
  | None => None
  end.

End GuildHall.

(** ** More of the object-store engine: the derived task view and the
       thirty-second flush *)

Module Sync.

Section Views.

Variable StringToNumber : string -> number.
Variable NumberToString : number -> string.

Definition with_spent (t : Task) (spent : value) : Task :=
  {| id := id t; title := title t; description := description t;
     completed := completed t; exp := exp t; type := type t;
     priority := priority t; voiceNote := voiceNote t;
     reminder := reminder t; reminderFired := reminderFired t;
     timeSpent := spent;
     isRunning := isRunning t;
     lastUpdated := lastUpdated t;
     completedAt := completedAt t; deleted := deleted t;
     deadline := deadline t; completedOnTime := completedOnTime t |}.

(** The body of [dbTasks.map(t => ...)]: the task as the views see it at
    time [now]. *)
Definition derive (now : Z) (t : Task) : Task :=
  if truthy (isRunning t) && truthy (lastUpdated t) then
    let delta := div (Coerce.minus StringToNumber (Num (int now)) (lastUpdated t))
                     (int 1000) in
    with_spent t
      (Coerce.plus_number StringToNumber NumberToString
         (Coerce.or_else (timeSpent t) (Num (int 0)))
         (if gt delta (int 0) then delta else int 0))
  else t.

(** What the flush at [currentTime] writes to one row. *)
Definition flush (currentTime : Z) (task : Task) : Task :=
  if truthy (isRunning task) then
    if truthy (lastUpdated task) then
      let delta := div (Coerce.minus StringToNumber (Num (int currentTime))
                                     (lastUpdated task))
                       (int 1000) in
      GameLoop.with_timer task
        (Coerce.plus_number StringToNumber NumberToString
           (Coerce.or_else (timeSpent task) (Num (int 0))) delta)
        currentTime
    else task
  else task.

End Views.

End Sync.

(** ** More specification vocabulary *)

Module Model.

(** A reminder the tick at [now] fires: pending, due, on a task whose
    stopwatch is not running. *)
Definition firesAt (now : Z) (t : Task) : bool :=
  negb (truthy (isRunning t))
  && GameLoop.reminderPending t
  && le (GameLoop.reminderTime t) (int now).

(** The notification of a task. *)
Definition notice (t : Task) : GameLoop.notification :=
  GameLoop.QuestDue (title t)
    (if String.eqb (description t) "" then "Time to complete this quest!"
     else description t).

(** [lastUpdated] is present exactly when the stopwatch runs. *)
Definition timer_ok (t : Task) : Prop :=
  truthy (isRunning t) = true <-> lastUpdated t <> Undefined.

(** A completion stamp sits only on a completed or abandoned task, and
    the on-time flag only on a completed one. *)
Definition stamp_ok (t : Task) : Prop :=
  (completedAt t <> None -> completed t = true \/ deleted t = Some true)
  /\ (completedOnTime t <> None -> completed t = true).

Definition well_formed (t : Task) : Prop := timer_ok t /\ stamp_ok t.

(** The thresholds of the experience curve: 100, then
    [floor(1.5 * previous)]. *)
Fixpoint threshold (k : nat) : Z :=
  match k with
  | O => 100
  | S k' => (3 * threshold k') / 2
  end.

(** The experience it takes to reach level [k + 1] from level 1. *)
Fixpoint spent (k : nat) : Z :=
  match k with
  | O => 0
  | S k' => spent k' + threshold k'
  end.

(** A state on the curve: level [k + 1], the threshold of that level,
    an integer running total. *)
Definition on_curve (k : nat) (c : Z) (s : UserStats) : Prop :=
  level s = int (Z.of_nat k + 1)
  /\ nextLevelExp s = int (threshold k)
  /\ currentExp s = int c.

End Model.

(** ** More sample data *)

Module Samples.

(** A user at level 2 and a guild that still shows the user at level 1. *)
Definition veteran : UserStats :=
  Engine.with_progress Engine.INITIAL_USER (int 2) (int 10) (int 150).

Definition party : Guild :=
  {| guild_id := "1700000000000"; guild_name := "Party"; code := "AB12CD";
     members :=
       [ {| member_id := "user"; member_name := "You"; member_level := int 1;
            member_class := Rogue; isUser := true |};
         {| member_id := "1700000000500"; member_name := "Ann";
            member_level := int 3; member_class := Mage; isUser := false |} ] |}.

(** A save document with two quests, and one whose two quests share an
    id. *)
Definition save : Store.SaveDoc :=
  {| Store.doc_tasks := Some [Examples.quest "1" 50 None; Examples.quest "2" 25 None];
     Store.doc_user := Some veteran;
     Store.doc_guild := Some party |}.

Definition clash : Store.SaveDoc :=
  {| Store.doc_tasks := Some [Examples.quest "1" 50 None; Examples.quest "1" 25 None];
     Store.doc_user := Some veteran;
     Store.doc_guild := None |}.

Definition emptyStore : Store.DB :=
  {| Store.tasks := ∅; Store.userStats := ∅; Store.guild := ∅ |}.

End Samples.

(* ================================================================== *)
(** * Part II: properties                                              *)
(* ================================================================== *)

(** ** Numbers *)

Lemma ge_Fin (a b : Q) : ge (Fin a) (Fin b) = true <-> (b <= a)%Q.
Proof. unfold ge, le. apply Qle_bool_iff. Qed.

Lemma ge_Fin_false (a b : Q) : ge (Fin a) (Fin b) = false <-> (a < b)%Q.
Proof.
  unfold ge, le. split; intros H.
  - apply Qnot_le_lt. intros Hle. apply Qle_bool_iff in Hle. congruence.
  - destruct (Qle_bool b a) eqn:E; [|reflexivity].
    apply Qle_bool_iff in E. lra.
Qed.

Lemma lt_Fin (a b : Q) : lt (Fin a) (Fin b) = true <-> (a < b)%Q.
Proof.
  unfold lt. rewrite negb_true_iff. apply (ge_Fin_false a b).
Qed.

Lemma lt_Fin_false (a b : Q) : lt (Fin a) (Fin b) = false <-> (b <= a)%Q.
Proof.
  unfold lt. rewrite negb_false_iff. apply Qle_bool_iff.
Qed.

Lemma floor_three_halves (n : Q) : (1 <= n)%Q -> (1 <= inject_Z (Qfloor (n * 1.5)))%Q.
Proof.
  intros H. change 1%Q with (inject_Z 1) at 1. rewrite <- Zle_Qle.
  rewrite <- (Qfloor_Z 1). apply Qfloor_resp_le.
  change (inject_Z 1) with 1%Q. lra.
Qed.

(** ** The level-up loop *)

Lemma not_decreased_refl (l : number) : Spec.not_decreased l l.
Proof. destruct l; simpl; [exact I | lra]. Qed.

Lemma not_decreased_succ (l : number) : Spec.not_decreased l (add l (int 1)).
Proof.
  destruct l as [|q]; simpl; [exact I|].
  change (inject_Z 1) with 1%Q. lra.
Qed.

Lemma not_decreased_trans (a b c : number) :
  Spec.not_decreased a b -> Spec.not_decreased b c -> Spec.not_decreased a c.
Proof.
  destruct a, b, c; simpl; try tauto. intros; lra.
Qed.

Lemma levelUp_unfold (fuel : nat) (c l n : number) :
  Engine.levelUp (S fuel) c l n =
  if ge c n
  then Engine.levelUp fuel (sub c n) (add l (int 1)) (Math_floor (mul n (Fin 1.5)))
  else Some (c, l, n).
Proof. reflexivity. Qed.

Lemma levelUp_exit (fuel : nat) (c l n : number) :
  ge c n = false -> Engine.levelUp fuel c l n = Some (c, l, n).
Proof. intros H. destruct fuel; simpl; rewrite H; reflexivity. Qed.

Lemma levelUp_more_fuel (fuel fuel' : nat) (c l n : number) r :
  Engine.levelUp fuel c l n = Some r -> (fuel <= fuel')%nat ->
  Engine.levelUp fuel' c l n = Some r.
Proof.
  revert fuel' c l n. induction fuel as [|fuel IH]; intros fuel' c l n H Hle.
  - simpl in H. destruct (ge c n) eqn:E; [discriminate|].
    rewrite levelUp_exit; assumption.
  - destruct fuel' as [|fuel']; [lia|].
    rewrite levelUp_unfold in *. destruct (ge c n); [|assumption].
    apply IH; [assumption | lia].
Qed.

(** With a threshold of at least 1 each iteration takes at least 1 off a
    non-negative total, so the loop exits, and it exits in range. *)
Lemma levelUp_returns (fuel : nat) :
  forall (c : Q) (l : number) (n : Q),
    (1 <= n)%Q -> (0 <= c)%Q -> (c < inject_Z (Z.of_nat fuel))%Q ->
    exists c' l' n',
      Engine.levelUp fuel (Fin c) l (Fin n) = Some (Fin c', l', Fin n')
      /\ (0 <= c' /\ c' < n')%Q /\ (1 <= n')%Q /\ Spec.not_decreased l l'.
Proof.
  induction fuel as [|fuel IH]; intros c l n Hn Hc Hfuel.
  - change (inject_Z (Z.of_nat 0)) with 0%Q in Hfuel. lra.
  - rewrite levelUp_unfold. destruct (ge (Fin c) (Fin n)) eqn:E.
    + apply ge_Fin in E. simpl.
      destruct (IH (c - n)%Q (add l (int 1)) (inject_Z (Qfloor (n * 1.5)))) as
        (c' & l' & n' & Hrun & Hrange & Hn' & Hl).
      * apply floor_three_halves; assumption.
      * lra.
      * rewrite Nat2Z.inj_succ in Hfuel. unfold Z.succ in Hfuel.
        rewrite inject_Z_plus in Hfuel. change (inject_Z 1) with 1%Q in Hfuel. lra.
      * exists c', l', n'. split; [exact Hrun|]. split; [exact Hrange|].
        split; [exact Hn'|].
        eapply not_decreased_trans; [apply not_decreased_succ | exact Hl].
    + apply ge_Fin_false in E. exists c, l, n.
      split; [reflexivity|]. split; [lra|]. split; [assumption|].
      apply not_decreased_refl.
Qed.

(** Enough fuel for a total [c]. *)
Lemma fuel_for (c : Q) : (0 <= c)%Q -> (c < inject_Z (Z.of_nat (Z.to_nat (Qfloor c + 1))))%Q.
Proof.
  intros Hc. rewrite Z2Nat.id.
  - apply Qlt_floor.
  - assert (0 <= Qfloor c)%Z; [|lia].
    rewrite <- (Qfloor_Z 0). apply Qfloor_resp_le. exact Hc.
Qed.

Lemma levelUp_total (c : Q) (l : number) (n : Q) :
  (1 <= n)%Q -> (0 <= c)%Q ->
  exists fuel0 c' l' n',
    (forall fuel, (fuel0 <= fuel)%nat ->
       Engine.levelUp fuel (Fin c) l (Fin n) = Some (Fin c', l', Fin n'))
    /\ (0 <= c' /\ c' < n')%Q /\ (1 <= n')%Q /\ Spec.not_decreased l l'.
Proof.
  intros Hn Hc.
  destruct (levelUp_returns (Z.to_nat (Qfloor c + 1)) c l n Hn Hc (fuel_for c Hc))
    as (c' & l' & n' & Hrun & Hrest).
  exists (Z.to_nat (Qfloor c + 1)), c', l', n'. split; [|exact Hrest].
  intros fuel Hle. eapply levelUp_more_fuel; eassumption.
Qed.

(** ** One call of [addExp] *)

Lemma addExp_step (s : UserStats) (amount : number) :
  Spec.in_range s -> Spec.threshold_ok s -> Spec.nonneg amount ->
  exists fuel0 s',
    (forall fuel, (fuel0 <= fuel)%nat -> Engine.addExp fuel s amount = Some s')
    /\ Spec.in_range s' /\ Spec.threshold_ok s'
    /\ Spec.not_decreased (level s) (level s').
Proof.
  unfold Spec.in_range, Spec.threshold_ok, Spec.nonneg, Engine.addExp.
  destruct (currentExp s) as [|c]; [tauto|].
  destruct (nextLevelExp s) as [|n]; [tauto|].
  destruct amount as [|a]; [tauto|]. intros [Hc _] Hn Ha. simpl.
  destruct (levelUp_total (c + a) (level s) n Hn) as
    (fuel0 & c' & l' & n' & Hrun & Hrange & Hn' & Hl); [lra|].
  exists fuel0, (Engine.with_progress s l' (Fin c') (Fin n')).
  split; [|simpl; auto].
  intros fuel Hle. rewrite (Hrun fuel Hle). reflexivity.
Qed.

Lemma addExp_db_step (row : option UserStats) (amount : number) :
  Spec.in_range (EngineDB.userStats row) ->
  Spec.threshold_ok (EngineDB.userStats row) -> Spec.nonneg amount ->
  exists fuel0 row',
    (forall fuel, (fuel0 <= fuel)%nat -> EngineDB.addExp fuel row amount = Some row')
    /\ Spec.in_range (EngineDB.userStats row')
    /\ Spec.threshold_ok (EngineDB.userStats row')
    /\ Spec.not_decreased (level (EngineDB.userStats row))
                          (level (EngineDB.userStats row')).
Proof.
  unfold Spec.in_range, Spec.threshold_ok, Spec.nonneg, EngineDB.addExp.
  destruct (currentExp (EngineDB.userStats row)) as [|c] eqn:Ec; [tauto|].
  destruct (nextLevelExp (EngineDB.userStats row)) as [|n] eqn:En; [tauto|].
  destruct amount as [|a]; [tauto|]. intros [Hc Hcn] Hn Ha. simpl.
  destruct (levelUp_total (c + a) (level (EngineDB.userStats row)) n Hn) as
    (fuel0 & c' & l' & n' & Hrun & Hrange & Hn' & Hl); [lra|].
  exists fuel0, (EngineDB.update row l' (Fin c') (Fin n')).
  split.
  - intros fuel Hle. rewrite (Hrun fuel Hle). reflexivity.
  - destruct row as [u|]; simpl in *.
    + auto.
    + change (inject_Z 0) with 0%Q. change (inject_Z 100) with 100%Q.
      repeat split; lra.
Qed.

(** ** Sequences of calls *)

Section Calls.

Context {St : Type} (view : St -> UserStats).
Context (step : nat -> St -> number -> option St).

Hypothesis step_ok :
  forall (s : St) (amount : number),
    Spec.in_range (view s) -> Spec.threshold_ok (view s) -> Spec.nonneg amount ->
    exists fuel0 s',
      (forall fuel, (fuel0 <= fuel)%nat -> step fuel s amount = Some s')
      /\ Spec.in_range (view s') /\ Spec.threshold_ok (view s')
      /\ Spec.not_decreased (level (view s)) (level (view s')).

Lemma calls_preserved (amounts : list number) :
  forall s : St,
    Spec.in_range (view s) -> Spec.threshold_ok (view s) ->
    Forall Spec.nonneg amounts ->
    exists fuel0 trace,
      (forall fuel, (fuel0 <= fuel)%nat ->
         Spec.calls (step fuel) s amounts = Some trace)
      /\ length trace = length amounts
      /\ Spec.preserved view s trace.
Proof using step_ok.
  induction amounts as [|amount rest IH]; intros s Hr Ht Hall.
  - exists 0%nat, []. simpl. auto.
  - inversion Hall as [|? ? Ha Hrest]; subst.
    destruct (step_ok s amount Hr Ht Ha) as (f1 & s' & Hstep & Hr' & Ht' & Hl).
    destruct (IH s' Hr' Ht' Hrest) as (f2 & trace & Hrun & Hlen & Hpres).
    exists (Nat.max f1 f2), (s' :: trace). split; [|split].
    + intros fuel Hle. simpl.
      rewrite (Hstep fuel) by lia. rewrite (Hrun fuel) by lia. reflexivity.
    + simpl. congruence.
    + simpl. auto.
Qed.

End Calls.


Ltac splits := repeat match goal with |- _ /\ _ => split end.

Ltac Qconst :=
  vm_compute; repeat split; try reflexivity; try discriminate;
  try (intro; discriminate).



(** What the threshold hypothesis excludes: below 2/3 the next threshold
    is floored to 0 and the loop never exits. *)
Lemma levelUp_zero_threshold_diverges (fuel : nat) :
  forall (c : Q) (l : number), (0 <= c)%Q ->
    Engine.levelUp fuel (Fin c) l (int 0) = None.
Proof.
  induction fuel as [|fuel IH]; intros c l Hc.
  - simpl. change (inject_Z 0) with 0%Q.
    destruct (Qle_bool 0 c) eqn:E; [reflexivity|].
    assert (Qle_bool 0 c = true) by (apply Qle_bool_iff; exact Hc). congruence.
  - rewrite levelUp_unfold.
    assert (E : ge (Fin c) (int 0) = true) by (apply ge_Fin; exact Hc).
    rewrite E. change (Math_floor (mul (int 0) (Fin 1.5))) with (int 0).
    apply IH. change (inject_Z 0) with 0%Q. lra.
Qed.

Lemma addExp_small_threshold_diverges (fuel : nat) :
  Spec.in_range (Engine.with_progress Engine.INITIAL_USER (int 1) (int 0) (Fin 0.5))
  /\ Engine.addExp fuel
       (Engine.with_progress Engine.INITIAL_USER (int 1) (int 0) (Fin 0.5))
       (int 1) = None.
Proof.
  split; [Qconst|]. unfold Engine.addExp. simpl.
  destruct fuel as [|fuel]; [reflexivity|].
  rewrite levelUp_unfold.
  change (ge (Fin (inject_Z 0 + inject_Z 1)) (Fin 0.5)) with true. cbv iota.
  change (Math_floor (mul (Fin 0.5) (Fin 1.5))) with (int 0).
  unfold sub.
  rewrite levelUp_zero_threshold_diverges; [reflexivity|].
  vm_compute. discriminate.
Qed.

(** ** A NaN running total *)




(** ** Completing a task *)

Lemma Qle_bool_inject_Z (a b : Z) : Qle_bool (inject_Z a) (inject_Z b) = (a <=? b)%Z.
Proof. unfold Qle_bool, inject_Z. simpl. rewrite !Z.mul_1_r. reflexivity. Qed.

Lemma lt_int (a b : Z) : lt (int a) (int b) = (a <? b)%Z.
Proof.
  unfold lt, int. rewrite Qle_bool_inject_Z. symmetry. apply Z.ltb_antisym.
Qed.

Lemma le_int (a b : Z) : le (int a) (int b) = (a <=? b)%Z.
Proof. apply Qle_bool_inject_Z. Qed.

(** The test of the code is the test of the claim: a deadline that
    parses, strictly before [now]. *)
Lemma pastDeadline_spec (task : Task) (now : Z) :
  TaskDashboard.pastDeadline task now = Spec.deadline_passed task now.
Proof.
  unfold TaskDashboard.pastDeadline, Spec.deadline_passed.
  destruct (deadline task) as [[| |due]|]; try reflexivity.
  simpl. apply lt_int.
Qed.

(** On an integer reward, [Math.floor(exp / 2)] is integer division. *)
Lemma half_int (e : Z) : Math_floor (div (int e) (int 2)) = int (e / 2).
Proof.
  unfold div, int. change (Qeq_bool (inject_Z 2) 0) with false. cbv iota.
  unfold Math_floor, int. rewrite <- Zdiv_Qdiv. reflexivity.
Qed.

(** C1.  A click that goes through (the task exists, is not completed
    and is not already finishing) awards [floor(exp / 2)] and records
    [completedOnTime = false] when the task has a deadline that has passed,
    and awards [exp] and records [completedOnTime = true] otherwise (no
    deadline, a deadline that does not parse, or a deadline not yet
    passed, the deadline instant included).  The delayed update hands
    exactly that amount to [onAddExp] and writes it, with the flag, into
    every task with this id; it changes no other task. *)
Theorem completion_award (finishingTaskIds : list string) (tasks : list Task)
  (id0 : string) (now : Z) (task : Task) :
  existsb (String.eqb id0) finishingTaskIds = false ->
  TaskDashboard.find_task tasks id0 = Some task ->
  completed task = false ->
  let late := Spec.deadline_passed task now in
  let earned := if late then Math_floor (div (exp task) (int 2)) else exp task in
  TaskDashboard.handleCompleteTask finishingTaskIds tasks id0 now
    = Some (earned, negb late)
  /\ forall (A : Type) (onAddExp : number -> A) (stamp : Z) (prev : list Task),
       fst (TaskDashboard.finishCompletion onAddExp id0 earned (negb late) stamp prev)
         = onAddExp earned
       /\ forall (i : nat) (t : Task), prev !! i = Some t ->
            exists t',
              snd (TaskDashboard.finishCompletion onAddExp id0 earned (negb late)
                     stamp prev) !! i = Some t'
              /\ (is_string (id t) id0 = true ->
                    exp t' = earned /\ completedOnTime t' = Some (negb late)
                    /\ completed t' = true)
              /\ (is_string (id t) id0 = false -> t' = t).
Proof.
  intros Hfin Hfind Hopen late earned. split.
  - unfold TaskDashboard.handleCompleteTask.
    rewrite Hfin, Hfind, Hopen, pastDeadline_spec.
    subst earned late. destruct (Spec.deadline_passed task now); reflexivity.
  - intros A onAddExp stamp prev. split; [reflexivity|].
    intros i t Hi. simpl. rewrite list_lookup_fmap, Hi. simpl.
    destruct (is_string (id t) id0) eqn:E.
    + eexists. split; [reflexivity|]. split; [|discriminate].
      intros _. simpl. auto.
    + eexists. split; [reflexivity|]. split; [discriminate|]. reflexivity.
Qed.

(** The example of the claim: a reward of 100, completed after the
    deadline, earns 50 and leaves 50 in the stored [exp]. *)
Lemma completion_award_witness :
  TaskDashboard.handleCompleteTask []
    [Examples.quest "1" 100 (Some (Instant 1000))] "1" 2000
  = Some (int 50, false)
  /\ exists t',
       snd (TaskDashboard.finishCompletion (fun amount => amount) "1" (int 50) false
              3200 [Examples.quest "1" 100 (Some (Instant 1000))]) !! 0%nat
       = Some t'
       /\ exp t' = int 50 /\ completedOnTime t' = Some false /\ completed t' = true.
Proof.
  pose (task := Examples.quest "1" 100 (Some (Instant 1000))).
  destruct (completion_award [] [task] "1" 2000 task eq_refl eq_refl eq_refl)
    as [Haward Hstore].
  split; [exact Haward|].
  destruct (Hstore number (fun amount => amount) 3200%Z [task]) as [_ Hat].
  destruct (Hat 0%nat task eq_refl) as (t' & Ht' & Hhit & _).
  exists t'. split; [exact Ht'|]. exact (Hhit eq_refl).
Defined.

(** ** The success rate *)

Lemma Qeq_bool_inject_Z_0 (n : Z) : n <> 0%Z -> Qeq_bool (inject_Z n) 0 = false.
Proof.
  intros Hn. destruct (Qeq_bool (inject_Z n) 0) eqn:E; [|reflexivity].
  apply Qeq_bool_eq in E. unfold Qeq in E. simpl in E. lia.
Qed.

(** Rounding a percentage of counts to the nearest integer, on integers. *)
Lemma percentage_spec (onTime total : nat) :
  total <> 0%nat ->
  Profile.percentage onTime total
  = int ((200 * Z.of_nat onTime + Z.of_nat total) / (2 * Z.of_nat total)).
Proof.
  intros Hn. unfold Profile.percentage, div, int.
  rewrite Qeq_bool_inject_Z_0 by lia. unfold mul, Math_round, int. f_equal. f_equal.
  rewrite Zdiv_Qdiv. apply Qfloor_comp.
  rewrite inject_Z_plus, !inject_Z_mult.
  assert (Hq : ~ inject_Z (Z.of_nat total) == 0).
  { intros E. unfold Qeq in E. simpl in E. lia. }
  change (inject_Z 200) with 200%Q. change (inject_Z 2) with 2%Q.
  change (inject_Z 100) with 100%Q.
  field. exact Hq.
Qed.


(** ** Loading the task list at startup *)

(** What the initializer does to a task it is given. *)
Lemma recoverTask_missing_fields (now : Z) (t : Task) :
  truthy (id t) = false \/ truthy (title t) = false ->
  Engine.recoverTask now t = t.
Proof.
  intros [H|H]; unfold Engine.recoverTask; rewrite H; simpl;
    [reflexivity | destruct (truthy (id t)); reflexivity].
Qed.

Lemma seconds_positive (now last : Z) :
  gt (Fin ((inject_Z now - inject_Z last) / inject_Z 1000)) (int 0) = (last <? now)%Z.
Proof.
  apply eq_true_iff_eq. unfold gt, int. rewrite lt_Fin, Z.ltb_lt, Zlt_Qlt.
  unfold Qdiv. change (/ inject_Z 1000)%Q with (1 # 1000)%Q.
  change (inject_Z 0) with 0%Q. split; intros; lra.
Qed.

Lemma seconds_below_year (now last : Z) :
  lt (Fin ((inject_Z now - inject_Z last) / inject_Z 1000)) (int 31536000)
  = (now - last <? 31536000 * 1000)%Z.
Proof.
  apply eq_true_iff_eq. unfold int. rewrite lt_Fin, Z.ltb_lt, Zlt_Qlt.
  unfold Z.sub. rewrite inject_Z_plus, inject_Z_opp.
  unfold Qdiv. change (/ inject_Z 1000)%Q with (1 # 1000)%Q.
  change (inject_Z 31536000) with 31536000%Q.
  change (inject_Z (31536000 * 1000)) with 31536000000%Q. split; intros; lra.
Qed.

(** A running task with a numeric time stamp: the elapsed seconds are
    added when they are positive and below one year (31536000 s), the
    bound itself excluded. *)
Lemma recoverTask_running (now last : Z) (t : Task) :
  truthy (id t) = true -> truthy (title t) = true ->
  isRunning t = Bool true -> lastUpdated t = Num (int last) -> last <> 0%Z ->
  Engine.recoverTask now t
  = Engine.with_recovered_time t
      (add (if typeof_number (timeSpent t) && negb (isNaN (Engine.as_number (timeSpent t)))
            then Engine.as_number (timeSpent t) else int 0)
           (if (last <? now)%Z && (now - last <? 31536000 * 1000)%Z
            then div (sub (int now) (int last)) (int 1000) else int 0))
      now.
Proof.
  intros Hid Htitle Hrun Hlast Hnz. unfold Engine.recoverTask.
  rewrite Hid, Htitle, Hrun, Hlast. simpl.
  rewrite Qeq_bool_inject_Z_0 by exact Hnz. simpl.
  f_equal. f_equal.
  pose proof (seconds_positive now last) as H1.
  pose proof (seconds_below_year now last) as H2.
  unfold gt, lt, int in H1, H2. rewrite H1, H2. reflexivity.
Qed.

(** A running task whose time stamp is missing is left as it is. *)
Lemma recoverTask_running_unstamped (now : Z) (t : Task) :
  truthy (lastUpdated t) = false ->
  typeof_number (timeSpent t) && negb (isNaN (Engine.as_number (timeSpent t))) = true ->
  Engine.recoverTask now t = t.
Proof.
  intros Hlast Hspent. unfold Engine.recoverTask. rewrite Hlast, andb_false_r.
  destruct (timeSpent t) as [| | |[|q]|]; try discriminate Hspent. simpl.
  destruct (negb (truthy (id t)) || negb (truthy (title t))); reflexivity.
Qed.

(** C5.  The code does not do what the claim says.  The task state the
    engine starts with is the parsed list exactly as stored: whenever the
    key holds a list, [usePersistent] returns it without calling the
    initializer, and the initializer, which reads the same key, finds
    nothing to recover whenever it is called.  A stopwatch left running
    at 1000 ms with 10 s on it is still at 10 s, stamped 1000, after a
    start at 6000 ms; the initializer would have made it 15 s, stamped
    6000. *)
Theorem startup_load_skips_recovery :
  (forall (now : Z) (item : Engine.stored Engine.payload),
     Engine.initialTasks now item
     = match item with
       | Engine.Parsed parsed => parsed
       | _ => Engine.TaskArray []
       end)
  /\ Engine.initialTasks 6000 (Engine.Parsed (Engine.TaskArray [Examples.running]))
     = Engine.TaskArray [Examples.running]
  /\ timeSpent Examples.running = Num (int 10)
  /\ lastUpdated Examples.running = Num (int 1000)
  /\ (exists spent,
        timeSpent (Engine.recoverTask 6000 Examples.running) = Num (Fin spent)
        /\ spent == 15)
  /\ lastUpdated (Engine.recoverTask 6000 Examples.running) = Num (int 6000).
Proof.
  split; [intros now [| |parsed]; reflexivity|].
  split; [reflexivity|]. split; [reflexivity|]. split; [reflexivity|].
  split; [|reflexivity].
  eexists. split; [vm_compute; reflexivity|]. reflexivity.
Qed.

(** ** Monk Mode: failure on a low success rate *)

(** The session of the code is the session of the claim. *)
Lemma inSession_spec (start : Z) (t : Task) :
  Profile.inSession (Instant start) t = Spec.in_session start t.
Proof.
  unfold Profile.inSession, Spec.in_session.
  destruct (completedAt t) as [[| |at_]|]; try reflexivity.
  simpl. rewrite Qle_bool_inject_Z, <- Z.ltb_antisym. reflexivity.
Qed.

Lemma session_total (stats : UserStats) (tasks : list Task) :
  (0 < Profile.total (Profile.getSessionStats stats tasks))%nat ->
  exists m start,
    monkMode stats = Some m /\ startDate m = Some (Instant start)
    /\ Profile.total (Profile.getSessionStats stats tasks)
       = length (List.filter (Spec.in_session start) tasks).
Proof.
  unfold Profile.getSessionStats.
  destruct (monkMode stats) as [m|]; [|simpl; lia].
  destruct (startDate m) as [[| |start]|] eqn:Hsd; try (simpl; lia).
  simpl. intros Hpos. exists m, start. split; [reflexivity|]. split; [exact Hsd|].
  rewrite (List.filter_ext _ _ (inSession_spec start)) in *.
  destruct (length (List.filter (Spec.in_session start) tasks)); simpl in *; lia.
Qed.

Lemma failureEffect_inactive (tasks : list Task) (stats : UserStats) (ui : Profile.UI) :
  Profile.activeSession stats = false ->
  Profile.failureEffect tasks (stats, ui) = (stats, ui).
Proof.
  intros H. unfold Profile.failureEffect. rewrite H. reflexivity.
Qed.



(** ** Monk Mode: the breach button *)

(** C8.  With Monk Mode active and the button not armed, a click at time
    [now] arms the button, starts a timer due at [now + 3000] and leaves
    the statistics alone.  A second click while the button is armed sets
    [isActive] to false.  The timer cannot run before [now + 3000]; once
    it runs, the button is no longer armed, Monk Mode is still active,
    and the next click only arms the button again. *)
Theorem breach_two_step (now : Z) (stats : UserStats) (ui : Profile.UI) (m : MonkMode) :
  monkMode stats = Some m -> isActive m = true -> Profile.confirmBreach ui = false ->
  let armed := Profile.handleBreachClick now (stats, ui) in
  fst armed = stats
  /\ Profile.confirmBreach (snd armed) = true
  /\ Profile.breachTimeout (snd armed) = Some (now + 3000)%Z
  /\ (forall t : Z,
        (t < now + 3000)%Z -> Profile.breachTimeoutFires t armed = None)
  /\ (forall t : Z,
        monkMode (fst (Profile.handleBreachClick t armed))
        = Some {| isActive := false; startDate := startDate m; endDate := endDate m;
                  durationLabel := durationLabel m; totalDays := totalDays m;
                  minSuccessRate := minSuccessRate m |}
        /\ Profile.confirmBreach (snd (Profile.handleBreachClick t armed)) = false)
  /\ (forall t : Z,
        (now + 3000 <= t)%Z ->
        exists expired,
          Profile.breachTimeoutFires t armed = Some expired
          /\ fst expired = stats
          /\ Profile.confirmBreach (snd expired) = false
          /\ forall t' : Z,
               fst (Profile.handleBreachClick t' expired) = stats
               /\ Profile.confirmBreach (snd (Profile.handleBreachClick t' expired))
                  = true).
Proof.
  intros Hm Hactive Hidle armed.
  assert (Harm : armed
                 = (stats,
                    {| Profile.confirmBreach := true;
                       Profile.breachTimeout := Some (now + 3000)%Z;
                       Profile.showFailureDialog := Profile.showFailureDialog ui |})).
  { subst armed. unfold Profile.handleBreachClick. rewrite Hidle. reflexivity. }
  rewrite Harm. clear Harm armed.
  split; [reflexivity|]. split; [reflexivity|]. split; [reflexivity|]. split; [|split].
  - intros t Ht. unfold Profile.breachTimeoutFires. simpl.
    destruct (now + 3000 <=? t)%Z eqn:E; [apply Z.leb_le in E; lia | reflexivity].
  - intros t. simpl. rewrite Hm. split; reflexivity.
  - intros t Ht. unfold Profile.breachTimeoutFires. simpl.
    destruct (now + 3000 <=? t)%Z eqn:E; [|apply Z.leb_gt in E; lia].
    eexists. split; [reflexivity|]. simpl. auto.
Qed.

Lemma breach_two_step_witness :
  Profile.confirmBreach (snd (Profile.handleBreachClick 5000 Examples.novice)) = true
  /\ Profile.activeSession (fst (Profile.handleBreachClick 5000 Examples.novice)) = true
  /\ Profile.activeSession
       (fst (Profile.handleBreachClick 7000
               (Profile.handleBreachClick 5000 Examples.novice))) = false
  /\ Profile.breachTimeoutFires 7999 (Profile.handleBreachClick 5000 Examples.novice)
     = None.
Proof.
  destruct (breach_two_step 5000 (fst Examples.novice) (snd Examples.novice)
              Examples.sevenDays eq_refl eq_refl eq_refl)
    as (Hstats & Harmed & _ & Hearly & Hcommit & _).
  change (fst Examples.novice, snd Examples.novice) with Examples.novice in *.
  split; [exact Harmed|]. split; [rewrite Hstats; reflexivity|]. split.
  - destruct (Hcommit 7000%Z) as [Hoff _].
    unfold Profile.activeSession. rewrite Hoff. reflexivity.
  - apply Hearly. reflexivity.
Defined.

(** ** Importing a save document *)

(** C9.  A save document without a [tasks] field is rejected with the
    failure alert, whatever else it holds and whatever the answer to the
    confirmation dialog would be; the three tables are what they were and
    the page is not reloaded.  More generally an import either reports
    success or leaves the store as it was. *)
Theorem import_without_tasks_rejected (user : option UserStats) (guild0 : option Guild)
  (confirmed : bool) (db : Store.DB) (file : option Store.parsedFile) :
  Store.handleImport
    (Some (Store.Document {| Store.doc_tasks := None; Store.doc_user := user;
                             Store.doc_guild := guild0 |}))
    confirmed db
  = {| Store.db_after := db; Store.alerted := Some Store.ImportFailed;
       Store.reloaded := false |}
  /\ (Store.db_after (Store.handleImport file confirmed db) = db
      \/ Store.alerted (Store.handleImport file confirmed db)
         = Some Store.ImportSucceeded).
Proof.
  split; [reflexivity|].
  unfold Store.handleImport.
  destruct file as [[|data]|]; try (left; reflexivity).
  destruct (Store.doc_tasks data), (Store.doc_user data); try (left; reflexivity).
  destruct confirmed; [|left; reflexivity].
  destruct (Store.transaction _ db); [right|left]; reflexivity.
Qed.

(** ** Abandoning a task *)

Lemma lookup_map_update (f : Task -> Task) (hit : Task -> bool) (prev : list Task)
  (i : nat) (t : Task) :
  prev !! i = Some t ->
  map (fun t => if hit t then f t else t) prev !! i
  = Some (if hit t then f t else t).
Proof.
  intros Hi. change (map ?g prev) with (g <$> prev).
  rewrite list_lookup_fmap, Hi. reflexivity.
Qed.

(** C10.  Abandoning the task [id0] at time [stamp] keeps the length of
    the collection, leaves every task with another id as it was and, in
    every task with this id, sets [deleted], stamps [completedAt] with
    [stamp], stops the stopwatch and changes nothing else.  The stamped
    task belongs to the Monk Mode session started at [start] exactly when
    [start < stamp], and to the bar of the day [dayStart..dayEnd] exactly
    when [stamp] lies in that day. *)
Theorem abandon_frame (id0 : string) (stamp : Z) (prev : list Task) :
  id0 <> "" ->
  snd (TaskDashboard.confirmDelete (Some id0) stamp prev) = None
  /\ length (fst (TaskDashboard.confirmDelete (Some id0) stamp prev)) = length prev
  /\ forall (i : nat) (t : Task), prev !! i = Some t ->
       exists t',
         fst (TaskDashboard.confirmDelete (Some id0) stamp prev) !! i = Some t'
         /\ (is_string (id t) id0 = false -> t' = t)
         /\ (is_string (id t) id0 = true ->
               deleted t' = Some true
               /\ completedAt t' = Some (toISOString stamp)
               /\ isRunning t' = Bool false
               /\ lastUpdated t' = Undefined
               /\ id t' = id t /\ title t' = title t
               /\ description t' = description t
               /\ exp t' = exp t /\ priority t' = priority t
               /\ timeSpent t' = timeSpent t
               /\ completed t' = completed t
               /\ type t' = type t /\ deadline t' = deadline t
               /\ reminder t' = reminder t /\ reminderFired t' = reminderFired t
               /\ completedOnTime t' = completedOnTime t
               /\ voiceNote t' = voiceNote t
               /\ (forall start : Z,
                     Profile.inSession (Instant start) t' = (start <? stamp)%Z)
               /\ (forall dayStart dayEnd : Z,
                     Profile.inDay dayStart dayEnd t'
                     = (dayStart <=? stamp)%Z && (stamp <=? dayEnd)%Z)).
Proof.
  intros Hid. unfold TaskDashboard.confirmDelete.
  assert (E : negb (String.eqb id0 "") = true).
  { apply negb_true_iff. apply String.eqb_neq. exact Hid. }
  rewrite E. simpl. split; [reflexivity|]. split; [apply length_map|].
  intros i t Hi.
  rewrite (lookup_map_update (fun t => TaskDashboard.with_deletion t stamp)
             (fun t => is_string (id t) id0) prev i t Hi).
  eexists. split; [reflexivity|].
  destruct (is_string (id t) id0); split; try discriminate; try reflexivity.
  intros _. simpl. repeat (split; [reflexivity|]). split.
  - intros start. unfold Profile.inSession. simpl.
    rewrite Qle_bool_inject_Z, <- Z.ltb_antisym.
    destruct (completed t); reflexivity.
  - intros dayStart dayEnd. unfold Profile.inDay. simpl.
    rewrite !Qle_bool_inject_Z. reflexivity.
Qed.

Lemma abandon_frame_witness :
  exists t',
    fst (TaskDashboard.confirmDelete (Some "5") 9000
           [Examples.quest "4" 100 None; Examples.quest "5" 25 None]) !! 1%nat
    = Some t'
    /\ deleted t' = Some true
    /\ exp t' = int 25
    /\ Profile.inSession (Instant 1000) t' = true
    /\ fst (TaskDashboard.confirmDelete (Some "5") 9000
              [Examples.quest "4" 100 None; Examples.quest "5" 25 None]) !! 0%nat
       = Some (Examples.quest "4" 100 None).
Proof.
  assert (Hid : "5" <> "") by discriminate.
  destruct (abandon_frame "5" 9000
              [Examples.quest "4" 100 None; Examples.quest "5" 25 None] Hid)
    as (_ & _ & Hat).
  destruct (Hat 1%nat (Examples.quest "5" 25 None) eq_refl) as (t' & Ht' & _ & Hhit).
  destruct (Hat 0%nat (Examples.quest "4" 100 None) eq_refl) as (t0 & Ht0 & Hmiss & _).
  exists t'. split; [exact Ht'|].
  destruct (Hhit eq_refl) as (Hdel & _ & _ & _ & _ & _ & _ & Hexp & Hrest).
  split; [exact Hdel|]. split; [rewrite Hexp; reflexivity|]. split.
  - destruct Hrest as (_ & _ & _ & _ & _ & _ & _ & _ & _ & Hsession & _).
    rewrite Hsession. reflexivity.
  - rewrite Ht0. f_equal. apply Hmiss. reflexivity.
Defined.

(** ** Monk Mode: milestones and completion *)

Lemma same_int (a b : Z) : same (int a) (int b) = (a =? b)%Z.
Proof.
  apply eq_true_iff_eq. unfold same, int.
  rewrite Qeq_bool_iff, Z.eqb_eq, inject_Z_injective. reflexivity.
Qed.

Lemma includes_app (l1 l2 : list number) (x : number) :
  includes (l1 ++ l2) x = includes l1 x || includes l2 x.
Proof. apply existsb_app. Qed.

Lemma includes_ints (pre : list Z) (x : Z) :
  ~ In x pre -> includes (map int pre) (int x) = false.
Proof.
  induction pre as [|y pre IH]; intros Hx; [reflexivity|].
  simpl in *. fold (includes (map int pre) (int x)). rewrite IH by tauto.
  replace (Qeq_bool (inject_Z x) (inject_Z y)) with (same (int x) (int y))
    by reflexivity.
  rewrite same_int. destruct (x =? y)%Z eqn:E; [|reflexivity].
  apply Z.eqb_eq in E. subst. tauto.
Qed.

Lemma unlock_step (elapsed : number) (old acc : list number) (flag : bool)
  (m : Profile.Milestone) :
  includes acc (int (Profile.d m)) = includes old (int (Profile.d m)) ->
  Profile.unlock elapsed (acc, flag) m
  = if Spec.newly_reached elapsed old m
    then (acc ++ [int (Profile.d m)], true)
    else (acc, flag).
Proof.
  intros H. unfold Profile.unlock, Spec.newly_reached. rewrite H. reflexivity.
Qed.

(** The [forEach] appends, in order, the milestones newly reached with
    respect to the list it started from, and raises the flag when there
    is one. *)
Lemma unlock_fold (elapsed : number) (old : list number) (ms : list Profile.Milestone) :
  forall (pre : list Z) (flag : bool),
    NoDup (map Profile.d ms) ->
    (forall m, In m ms -> ~ In (Profile.d m) pre) ->
    fold_left (Profile.unlock elapsed) ms (old ++ map int pre, flag)
    = (old ++ map int (pre ++ map Profile.d
                                  (List.filter (Spec.newly_reached elapsed old) ms)),
       flag || existsb (Spec.newly_reached elapsed old) ms).
Proof.
  induction ms as [|m ms IH]; intros pre flag Hnodup Hfresh.
  - simpl. rewrite app_nil_r, orb_false_r. reflexivity.
  - apply NoDup_cons in Hnodup. destruct Hnodup as [Hm Hrest].
    rewrite list_elem_of_In in Hm.
    cbn [fold_left List.filter existsb].
    rewrite (unlock_step elapsed old).
    2:{ rewrite includes_app, (includes_ints pre) by (apply Hfresh; left; reflexivity).
        apply orb_false_r. }
    destruct (Spec.newly_reached elapsed old m).
    + replace ((old ++ map int pre) ++ [int (Profile.d m)])
        with (old ++ map int (pre ++ [Profile.d m]))
        by (rewrite map_app, app_assoc; reflexivity).
      rewrite IH.
      * cbn [map]. rewrite <- app_assoc. cbn [app].
        rewrite orb_true_r. reflexivity.
      * exact Hrest.
      * intros m' Hm' Hin. apply in_app_or in Hin. destruct Hin as [Hin|Hin].
        -- apply (Hfresh m'); [right; exact Hm' | exact Hin].
        -- destruct Hin as [Heq|[]]. apply Hm. rewrite Heq.
           apply in_map. exact Hm'.
    + rewrite IH.
      * rewrite orb_false_l. reflexivity.
      * exact Hrest.
      * intros m' Hm'. apply Hfresh. right. exact Hm'.
Qed.

Lemma milestones_distinct : NoDup (map Profile.d Profile.MONK_MILESTONES).
Proof.
  repeat (apply NoDup_cons_2; [rewrite list_elem_of_In; cbv; intuition discriminate|]).
  apply NoDup_nil_2.
Qed.

(** Comparing the elapsed days with a whole number of days is comparing
    milliseconds. *)
Lemma elapsedDays_ge (now start days : Z) :
  ge (Profile.elapsedDays now (int start)) (int days)
  = (days * 86400000 <=? Z.abs (now - start))%Z.
Proof.
  apply eq_true_iff_eq. unfold Profile.elapsedDays, sub, Math_abs, int, div.
  change (inject_Z (1000 * 60 * 60 * 24)) with (inject_Z 86400000).
  change (Qeq_bool (inject_Z 86400000) 0) with false. cbv iota.
  rewrite ge_Fin, Z.leb_le, Zle_Qle, (inject_Z_mult days).
  change (Qabs (inject_Z now - inject_Z start))
    with (inject_Z (Z.abs (now * 1 + - start * 1))).
  replace (now * 1 + - start * 1)%Z with (now - start)%Z by lia.
  unfold Qdiv. change (/ inject_Z 86400000) with (1 # 86400000).
  change (inject_Z 86400000) with 86400000%Q.
  split; intros; lra.
Qed.

Lemma existsb_false_filter {A : Type} (f : A -> bool) (xs : list A) :
  existsb f xs = false -> List.filter f xs = [].
Proof.
  induction xs as [|x xs IH]; [reflexivity|]. simpl.
  destruct (f x); [discriminate|]. exact IH.
Qed.

(** C7.  With Monk Mode active, a tick at time [now] appends to the
    unlocked list, in order, every milestone duration that is at most the
    elapsed days and not yet in the list, and nothing else; so every
    milestone reached is in the list afterwards.  When the elapsed days
    reach [totalDays], [isActive] becomes false, the unlocked list is the
    extended one and the completion notice is shown; otherwise the
    session record is unchanged and nothing is shown. *)
Theorem milestone_tick (now start : Z) (stats : UserStats) (m : MonkMode) :
  monkMode stats = Some m -> isActive m = true ->
  startDate m = Some (Instant start) ->
  let elapsed := Profile.elapsedDays now (int start) in
  let result := Profile.milestoneEffect now stats in
  unlockedMonkModes (fst result)
  = unlockedMonkModes stats
    ++ map (fun ms => int (Profile.d ms))
         (List.filter (Spec.newly_reached elapsed (unlockedMonkModes stats))
                      Profile.MONK_MILESTONES)
  /\ (forall ms, In ms Profile.MONK_MILESTONES ->
        ge elapsed (int (Profile.d ms)) = true ->
        includes (unlockedMonkModes (fst result)) (int (Profile.d ms)) = true)
  /\ (forall days : Z,
        ge elapsed (int days) = (days * 86400000 <=? Z.abs (now - start))%Z)
  /\ (ge elapsed (totalDays m) = true ->
        monkMode (fst result)
        = Some {| isActive := false; startDate := startDate m; endDate := endDate m;
                  durationLabel := durationLabel m; totalDays := totalDays m;
                  minSuccessRate := minSuccessRate m |}
        /\ snd result = Some (Profile.ProtocolComplete (durationLabel m)))
  /\ (ge elapsed (totalDays m) = false ->
        monkMode (fst result) = Some m /\ snd result = None)
  /\ level (fst result) = level stats
  /\ currentExp (fst result) = currentExp stats
  /\ nextLevelExp (fst result) = nextLevelExp stats.
Proof.
  intros Hm Hactive Hstart elapsed result.
  pose proof (unlock_fold elapsed (unlockedMonkModes stats) Profile.MONK_MILESTONES
                [] false milestones_distinct (fun _ _ H => H)) as Hfold.
  cbn [map app] in Hfold. rewrite app_nil_r in Hfold.
  rewrite map_map in Hfold. cbn [orb] in Hfold.
  assert (Hlist : unlockedMonkModes (fst result)
                  = unlockedMonkModes stats
                    ++ map (fun ms => int (Profile.d ms))
                         (List.filter
                            (Spec.newly_reached elapsed (unlockedMonkModes stats))
                            Profile.MONK_MILESTONES)
                  /\ monkMode (fst result)
                     = (if ge elapsed (totalDays m)
                        then Some (Profile.inactive (Some m)) else Some m)
                  /\ snd result
                     = (if ge elapsed (totalDays m)
                        then Some (Profile.ProtocolComplete (durationLabel m))
                        else None)
                  /\ level (fst result) = level stats
                  /\ currentExp (fst result) = currentExp stats
                  /\ nextLevelExp (fst result) = nextLevelExp stats).
  { subst result. unfold Profile.milestoneEffect.
    rewrite Hm, Hstart, Hactive. cbn [truthy_date andb getTime isNaN int].
    fold elapsed. rewrite Hfold.
    destruct (ge elapsed (totalDays m)).
    - cbn [fst snd Profile.with_unlocked Profile.with_monkMode unlockedMonkModes
           monkMode level currentExp nextLevelExp]. splits; reflexivity.
    - destruct (existsb _ _) eqn:E.
      + cbn [fst snd Profile.with_unlocked unlockedMonkModes monkMode level
             currentExp nextLevelExp]. splits; auto.
      + rewrite (existsb_false_filter _ _ E). cbn [map fst snd].
        rewrite app_nil_r. splits; auto. }
  destruct Hlist as (Hlist & Hmode & Hnotice & Hl & Hc & Hn).
  split; [exact Hlist|]. split; [|split; [|split; [|split]]].
  - intros ms Hin Hreached. rewrite Hlist, includes_app.
    destruct (includes (unlockedMonkModes stats) (int (Profile.d ms))) eqn:E;
      [reflexivity|].
    cbn [orb]. unfold includes. apply existsb_exists.
    exists (int (Profile.d ms)). split.
    + apply (in_map (fun ms => int (Profile.d ms))). apply filter_In.
      split; [exact Hin|]. unfold Spec.newly_reached. rewrite Hreached, E. reflexivity.
    + rewrite same_int. apply Z.eqb_refl.
  - intros days. apply elapsedDays_ge.
  - intros Hdone. rewrite Hmode, Hnotice, Hdone. auto.
  - intros Hnot. rewrite Hmode, Hnotice, Hnot. auto.
  - splits; assumption.
Qed.

(** The example of the claim: a seven-day session, seven days after its
    start, ends inactive with milestone 7 unlocked. *)
Lemma milestone_tick_witness :
  Profile.activeSession (fst Examples.novice) = true
  /\ unlockedMonkModes (fst Examples.novice) = []
  /\ Profile.activeSession
       (fst (Profile.milestoneEffect (1000 + 7 * Examples.day) (fst Examples.novice)))
     = false
  /\ includes
       (unlockedMonkModes
          (fst (Profile.milestoneEffect (1000 + 7 * Examples.day)
                  (fst Examples.novice))))
       (int 7) = true
  /\ snd (Profile.milestoneEffect (1000 + 7 * Examples.day) (fst Examples.novice))
     = Some (Profile.ProtocolComplete "7 Days").
Proof.
  destruct (milestone_tick (1000 + 7 * Examples.day) 1000 (fst Examples.novice)
              Examples.sevenDays eq_refl eq_refl eq_refl)
    as (_ & Hin & Hge & Hdone & _).
  assert (Hseven : ge (Profile.elapsedDays (1000 + 7 * Examples.day) (int 1000)) (int 7)
                   = true) by (rewrite Hge; reflexivity).
  destruct (Hdone Hseven) as [Hmode Hnotice].
  split; [reflexivity|]. split; [reflexivity|]. split; [|split].
  - unfold Profile.activeSession. rewrite Hmode. reflexivity.
  - apply (Hin (Profile.mkMilestone "7 Days" 7 "Novice")); [left; reflexivity|].
    exact Hseven.
  - exact Hnotice.
Defined.

(* ================================================================== *)
(** * Part III: further properties of the code                         *)
(* ================================================================== *)

(** ** The one-second tick *)

Section TickProperties.

Variable StringToNumber : string -> number.
Variable NumberToString : number -> string.

Local Abbreviation tickTask := (GameLoop.tickTask StringToNumber NumberToString).
Local Abbreviation tick := (GameLoop.tick StringToNumber NumberToString).
Local Abbreviation tickDelta := (GameLoop.safeDelta StringToNumber).

Lemma tick_idle (now : Z) (granted : bool) (current : list Task) :
  existsb (GameLoop.needsWork now) current = false ->
  tick now granted current = (current, []).
Proof.
  intros H. unfold GameLoop.tick. rewrite H. reflexivity.
Qed.

Lemma tickTask_idle (now : Z) (granted : bool) (t : Task) :
  GameLoop.needsWork now t = false -> tickTask now granted t = (t, []).
Proof.
  unfold GameLoop.needsWork, GameLoop.tickTask. intros H.
  apply orb_false_iff in H. destruct H as [Hrun Hdue]. rewrite Hrun.
  destruct (GameLoop.reminderPending t); [|reflexivity].
  simpl in Hdue. rewrite Hdue, andb_false_r. reflexivity.
Qed.

(** The list after a tick, task by task, whether or not the tick had
    anything to do. *)
Lemma tick_tasks (now : Z) (granted : bool) (current : list Task) :
  fst (tick now granted current) = map (fun t => fst (tickTask now granted t)) current.
Proof.
  unfold GameLoop.tick.
  destruct (existsb (GameLoop.needsWork now) current) eqn:E; [reflexivity|].
  simpl. symmetry. rewrite <- (map_id current) at 2. apply map_ext_in.
  intros t Hin. rewrite tickTask_idle; [reflexivity|].
  destruct (GameLoop.needsWork now t) eqn:Ht; [|reflexivity].
  assert (existsb (GameLoop.needsWork now) current = true)
    by (apply existsb_exists; exists t; auto).
  congruence.
Qed.

Lemma tick_notifications (now : Z) (granted : bool) (current : list Task) :
  snd (tick now granted current)
  = concat (map (fun t => snd (tickTask now granted t)) current).
Proof.
  unfold GameLoop.tick.
  destruct (existsb (GameLoop.needsWork now) current) eqn:E; [reflexivity|].
  simpl. induction current as [|t rest IH]; [reflexivity|].
  simpl in E. apply orb_false_iff in E. destruct E as [Ht Hrest].
  simpl. rewrite (tickTask_idle now granted t Ht). simpl. apply IH. exact Hrest.
Qed.

Lemma tick_lookup (now : Z) (granted : bool) (current : list Task) (i : nat) (t : Task) :
  current !! i = Some t ->
  fst (tick now granted current) !! i = Some (fst (tickTask now granted t)).
Proof.
  intros Hi. rewrite tick_tasks.
  change (map ?g current) with (g <$> current).
  rewrite list_lookup_fmap, Hi. reflexivity.
Qed.

Lemma le_not_NaN (x y : number) : negb (isNaN x) && le x y = le x y.
Proof. destruct x; reflexivity. Qed.

(** What one task contributes to the notifications of a tick. *)
Lemma tickTask_notice (now : Z) (granted : bool) (t : Task) :
  snd (tickTask now granted t)
  = if granted && Model.firesAt now t then [Model.notice t] else [].
Proof.
  unfold GameLoop.tickTask, Model.firesAt.
  destruct (truthy (isRunning t)); [rewrite andb_false_r; reflexivity|].
  destruct (GameLoop.reminderPending t); [|rewrite andb_false_r; reflexivity].
  rewrite le_not_NaN. simpl.
  destruct (le (GameLoop.reminderTime t) (int now)); simpl;
    [destruct granted; reflexivity | rewrite andb_false_r; reflexivity].
Qed.

(** A task that came out of a tick at [now] has no reminder left for
    that tick to fire. *)
Lemma tickTask_settled (now : Z) (granted : bool) (t : Task) :
  Model.firesAt now (fst (tickTask now granted t)) = false.
Proof.
  unfold GameLoop.tickTask, Model.firesAt.
  destruct (truthy (isRunning t)) eqn:Hrun.
  - simpl. rewrite Hrun. reflexivity.
  - destruct (GameLoop.reminderPending t) eqn:Hpending.
    + rewrite le_not_NaN.
      destruct (le (GameLoop.reminderTime t) (int now)) eqn:Hdue.
      * simpl. rewrite Hrun. unfold GameLoop.reminderPending. simpl.
        rewrite andb_false_r. reflexivity.
      * simpl. rewrite Hrun, Hpending, Hdue. reflexivity.
    + simpl. rewrite Hrun, Hpending. reflexivity.
Qed.

(** X1.  A tick keeps the collection in place: same length, and in every
    task only [timeSpent] and [lastUpdated] (of a running stopwatch) or
    [reminderFired] (of a reminder that fires) can differ; a task with no
    running stopwatch and no reminder to fire is returned as it is. *)
Theorem tick_frame (now : Z) (granted : bool) (current : list Task) :
  length (fst (tick now granted current)) = length current
  /\ forall (i : nat) (t : Task), current !! i = Some t ->
       exists t',
         fst (tick now granted current) !! i = Some t'
         /\ id t' = id t /\ title t' = title t /\ description t' = description t
         /\ completed t' = completed t /\ exp t' = exp t /\ type t' = type t
         /\ priority t' = priority t /\ voiceNote t' = voiceNote t
         /\ reminder t' = reminder t /\ isRunning t' = isRunning t
         /\ completedAt t' = completedAt t /\ deleted t' = deleted t
         /\ deadline t' = deadline t /\ completedOnTime t' = completedOnTime t
         /\ (truthy (isRunning t) = false ->
               timeSpent t' = timeSpent t /\ lastUpdated t' = lastUpdated t)
         /\ (reminderFired t' = reminderFired t
             \/ (Model.firesAt now t = true /\ reminderFired t' = Some true))
         /\ (GameLoop.needsWork now t = false -> t' = t).
Proof.
  split; [rewrite tick_tasks; apply length_map|].
  intros i t Hi. exists (fst (tickTask now granted t)).
  split; [apply tick_lookup; exact Hi|].
  unfold GameLoop.tickTask, Model.firesAt, GameLoop.needsWork.
  destruct (truthy (isRunning t)) eqn:Hrun.
  - simpl. splits; try reflexivity; try discriminate. left. reflexivity.
  - destruct (GameLoop.reminderPending t) eqn:Hpending.
    + rewrite le_not_NaN.
      destruct (le (GameLoop.reminderTime t) (int now)) eqn:Hdue; simpl.
      * splits; try reflexivity; try discriminate; auto.
      * splits; try reflexivity; auto.
    + simpl. splits; try reflexivity; auto.
Qed.

(** X2.  The notifications of a tick are those of the reminders that are
    pending and due on tasks whose stopwatch is not running, in task
    order, and only when permission is granted; the task list after the
    tick does not depend on the permission, so without it a due reminder
    is marked fired and never shown; a second tick at the same time
    notifies nothing. *)
Theorem tick_reminders (now : Z) (granted : bool) (current : list Task) :
  snd (tick now granted current)
  = (if granted then map Model.notice (List.filter (Model.firesAt now) current)
     else [])
  /\ fst (tick now granted current) = fst (tick now (negb granted) current)
  /\ snd (tick now granted (fst (tick now granted current))) = []
  /\ forall (i : nat) (t : Task),
       current !! i = Some t ->
       exists t',
         fst (tick now granted current) !! i = Some t'
         /\ reminderFired t'
            = (if Model.firesAt now t then Some true else reminderFired t).
Proof.
  assert (Hnotes : forall g l,
             snd (tick now g l)
             = if g then map Model.notice (List.filter (Model.firesAt now) l) else []).
  { intros g l. rewrite tick_notifications.
    induction l as [|t rest IH]; [destruct g; reflexivity|].
    cbn [map concat List.filter]. rewrite IH, tickTask_notice.
    destruct g; [|reflexivity]. simpl.
    destruct (Model.firesAt now t); reflexivity. }
  split; [apply Hnotes|]. split; [|split].
  - rewrite !tick_tasks. apply map_ext. intros t.
    unfold GameLoop.tickTask.
    destruct (truthy (isRunning t)); [reflexivity|].
    destruct (GameLoop.reminderPending t); [|reflexivity].
    destruct (negb (isNaN (GameLoop.reminderTime t))
              && le (GameLoop.reminderTime t) (int now)); reflexivity.
  - rewrite Hnotes. destruct granted; [|reflexivity].
    rewrite tick_tasks.
    induction current as [|t rest IH]; [reflexivity|].
    cbn [map List.filter]. rewrite tickTask_settled. exact IH.
  - intros i t Hi. exists (fst (tickTask now granted t)).
    split; [apply tick_lookup; exact Hi|].
    unfold GameLoop.tickTask, Model.firesAt.
    destruct (truthy (isRunning t)); [reflexivity|].
    destruct (GameLoop.reminderPending t); [|reflexivity].
    rewrite le_not_NaN.
    destruct (le (GameLoop.reminderTime t) (int now)); reflexivity.
Qed.

Lemma truthy_int (z : Z) : z <> 0%Z -> truthy (Num (int z)) = true.
Proof.
  intros Hz. simpl. rewrite Qeq_bool_inject_Z_0 by exact Hz. reflexivity.
Qed.

(** [(spent || 0) + delta] on a numeric [spent]. *)
Lemma plus_spent (s delta : Q) :
  exists s',
    Coerce.plus_number StringToNumber NumberToString
      (Coerce.or_else (Num (Fin s)) (Num (int 0))) (Fin delta) = Num (Fin s')
    /\ s' == s + delta.
Proof.
  unfold Coerce.or_else. simpl. destruct (Qeq_bool s 0) eqn:E; simpl.
  - eexists. split; [reflexivity|]. apply Qeq_bool_eq in E.
    change (inject_Z 0) with 0%Q. rewrite E. reflexivity.
  - eexists. split; [reflexivity|]. reflexivity.
Qed.

Lemma or_else_truthy (v d : value) : truthy v = true -> Coerce.or_else v d = v.
Proof. intros H. unfold Coerce.or_else. rewrite H. reflexivity. Qed.

Lemma or_else_falsy (v d : value) : truthy v = false -> Coerce.or_else v d = d.
Proof. intros H. unfold Coerce.or_else. rewrite H. reflexivity. Qed.

(** [delta > 0 ? delta : 0] is a finite number that is not negative. *)
Lemma safeDelta_nonneg (delta : number) :
  exists d, (if gt delta (int 0) then delta else int 0) = Fin d /\ 0 <= d.
Proof.
  destruct delta as [|q].
  - exists (inject_Z 0). split; [reflexivity|]. change (inject_Z 0) with 0%Q. lra.
  - destruct (gt (Fin q) (int 0)) eqn:E.
    + exists q. split; [reflexivity|]. unfold gt, int in E. apply lt_Fin in E.
      change (inject_Z 0) with 0%Q in E. lra.
    + exists (inject_Z 0). split; [reflexivity|]. change (inject_Z 0) with 0%Q. lra.
Qed.

Lemma tickDelta_numeric (now l : Z) :
  l <> 0%Z ->
  tickDelta now (Num (int l))
  = if (l <? now)%Z then Fin ((inject_Z now - inject_Z l) / inject_Z 1000) else int 0.
Proof.
  intros Hl. unfold GameLoop.safeDelta. rewrite (or_else_truthy _ _ (truthy_int l Hl)).
  unfold Coerce.minus, Coerce.ToNumber, sub, int at 1 2.
  unfold div, int at 1. change (Qeq_bool (inject_Z 1000) 0) with false. cbv iota.
  rewrite seconds_positive. reflexivity.
Qed.

Lemma tickDelta_missing (now : Z) (last : value) :
  truthy last = false -> tickDelta now last = int 0.
Proof.
  intros H. unfold GameLoop.safeDelta. rewrite (or_else_falsy _ _ H).
  unfold Coerce.minus, Coerce.ToNumber, sub, int at 1 2.
  unfold div, int at 1. change (Qeq_bool (inject_Z 1000) 0) with false. cbv iota.
  rewrite seconds_positive, Z.ltb_irrefl. reflexivity.
Qed.

(** One tick of a running stopwatch with a numeric [timeSpent]. *)
Lemma tickTask_running (now : Z) (granted : bool) (t : Task) (s : Q) :
  truthy (isRunning t) = true -> timeSpent t = Num (Fin s) ->
  exists s' d,
    fst (tickTask now granted t) = GameLoop.with_timer t (Num (Fin s')) now
    /\ tickDelta now (lastUpdated t) = Fin d
    /\ 0 <= d /\ s' == s + d.
Proof.
  intros Hrun Hspent. unfold GameLoop.tickTask. rewrite Hrun, Hspent.
  cbn [fst].
  destruct (safeDelta_nonneg
              (div (Coerce.minus StringToNumber (Num (int now))
                      (Coerce.or_else (lastUpdated t) (Num (int now)))) (int 1000)))
    as (d & Hd & Hpos).
  change (tickDelta now (lastUpdated t) = Fin d) in Hd. rewrite Hd.
  destruct (plus_spent s d) as (s' & Hs' & Heq).
  exists s', d. rewrite Hs'. auto.
Qed.



End TickProperties.



(** ** Well-formed task records *)

Ltac well_formed_task :=
  unfold Model.well_formed, Model.timer_ok, Model.stamp_ok;
  cbn [isRunning lastUpdated completedAt deleted completed completedOnTime truthy
       GameLoop.with_timer GameLoop.with_reminderFired Board.with_toggle
       TaskDashboard.with_completion TaskDashboard.with_deletion
       Engine.with_recovered_time Engine.with_timeSpent Sync.with_spent];
  intuition (try congruence; try discriminate).

Lemma tickTask_well_formed S N (now : Z) (granted : bool) (t : Task) :
  Model.well_formed t -> Model.well_formed (fst (GameLoop.tickTask S N now granted t)).
Proof.
  intros Hwf. unfold GameLoop.tickTask.
  destruct (truthy (isRunning t)) eqn:Hrun.
  - cbn [fst]. revert Hwf. well_formed_task.
  - destruct (GameLoop.reminderPending t); [|exact Hwf].
    destruct (negb (isNaN (GameLoop.reminderTime t))
              && le (GameLoop.reminderTime t) (int now)); [|exact Hwf].
    cbn [fst]. revert Hwf. well_formed_task.
Qed.

Lemma toggle_well_formed (now : Z) (t : Task) :
  Model.well_formed t -> Model.well_formed (Board.with_toggle t now).
Proof.
  unfold Board.with_toggle. destruct (truthy (isRunning t)); well_formed_task.
Qed.

Lemma completion_well_formed (stamp : Z) (isOnTime : bool) (earned : number) (t : Task) :
  Model.well_formed (TaskDashboard.with_completion t stamp isOnTime earned).
Proof. well_formed_task. Qed.

Lemma deletion_well_formed (stamp : Z) (t : Task) :
  Model.well_formed t -> Model.well_formed (TaskDashboard.with_deletion t stamp).
Proof. well_formed_task. Qed.

Lemma recoverTask_well_formed (now : Z) (t : Task) :
  Model.well_formed t -> Model.well_formed (Engine.recoverTask now t).
Proof.
  intros Hwf. unfold Engine.recoverTask.
  destruct (negb (truthy (id t)) || negb (truthy (title t))); [exact Hwf|].
  destruct (truthy (isRunning t)) eqn:Hrun; cbn [andb].
  - destruct (truthy (lastUpdated t)).
    + revert Hwf. well_formed_task.
    + destruct (negb (typeof_number (timeSpent t))
                || isNaN (Engine.as_number (timeSpent t))); [|exact Hwf].
      revert Hwf. well_formed_task.
  - destruct (negb (typeof_number (timeSpent t))
              || isNaN (Engine.as_number (timeSpent t))); [|exact Hwf].
    revert Hwf. well_formed_task.
Qed.

Lemma flush_well_formed S N (now : Z) (t : Task) :
  Model.well_formed t ->
  Model.well_formed (Sync.flush S N now t) /\ Model.well_formed (Sync.derive S N now t).
Proof.
  intros Hwf. unfold Sync.flush, Sync.derive.
  destruct (truthy (isRunning t)) eqn:Hrun; cbn [andb]; [|split; exact Hwf].
  destruct (truthy (lastUpdated t)); [|split; exact Hwf].
  split; revert Hwf; well_formed_task.
Qed.

Lemma Forall_map_if {A : Type} (P : A -> Prop) (hit : A -> bool) (f : A -> A)
  (xs : list A) :
  (forall x, P x -> P (f x)) -> Forall P xs ->
  Forall P (map (fun x => if hit x then f x else x) xs).
Proof.
  intros Hf Hall. induction Hall as [|x xs Hx Hxs IH]; [constructor|].
  simpl. constructor; [destruct (hit x); auto | exact IH].
Qed.

(** X5.  Every operation on the task collection keeps the records well
    formed: [lastUpdated] is present exactly when the stopwatch runs, a
    completion stamp sits only on a completed or abandoned task and the
    on-time flag only on a completed one.  This holds for the tick, the
    startup recovery, starting and pausing a stopwatch, completing,
    abandoning and adding a task, and for the derived view and the flush
    of the object-store engine. *)
Theorem operations_keep_well_formed
  (StringToNumber : string -> number) (NumberToString : number -> string)
  (trim : string -> string) (tasks : list Task) :
  Forall Model.well_formed tasks ->
  (forall now granted,
      Forall Model.well_formed
        (fst (GameLoop.tick StringToNumber NumberToString now granted tasks)))
  /\ (forall now, Forall Model.well_formed (map (Engine.recoverTask now) tasks))
  /\ (forall id0 now, Forall Model.well_formed (Board.toggleTimer id0 now tasks))
  /\ (forall id0 earned isOnTime stamp,
        Forall Model.well_formed
          (snd (TaskDashboard.finishCompletion (fun amount : number => amount)
                  id0 earned isOnTime stamp tasks)))
  /\ (forall pending stamp,
        Forall Model.well_formed (fst (TaskDashboard.confirmDelete pending stamp tasks)))
  /\ (forall now title0 p due,
        Forall Model.well_formed
          (Board.addTask trim NumberToString now title0 p due tasks))
  /\ (forall now,
        Forall Model.well_formed (map (Sync.flush StringToNumber NumberToString now) tasks)
        /\ Forall Model.well_formed
             (map (Sync.derive StringToNumber NumberToString now) tasks)).
Proof.
  intros Hall. splits.
  - intros now granted. rewrite tick_tasks.
    induction Hall; simpl; constructor; auto using tickTask_well_formed.
  - intros now. induction Hall; simpl; constructor; auto using recoverTask_well_formed.
  - intros id0 now. apply Forall_map_if; auto using toggle_well_formed.
  - intros id0 earned isOnTime stamp. simpl.
    apply Forall_map_if; auto using completion_well_formed.
  - intros [id0|] stamp; simpl; [|exact Hall].
    destruct (negb (String.eqb id0 "")); simpl; [|exact Hall].
    apply Forall_map_if; auto using deletion_well_formed.
  - intros now title0 p due. unfold Board.addTask.
    destruct (String.eqb (trim title0) ""); [exact Hall|].
    constructor; [|exact Hall]. well_formed_task.
  - intros now. split; induction Hall; simpl; constructor; auto;
      apply flush_well_formed; assumption.
Qed.

Lemma operations_keep_well_formed_witness :
  Forall Model.well_formed [Examples.running]
  /\ Forall Model.well_formed (Board.toggleTimer "7" 2000 [Examples.running])
  /\ Forall Model.well_formed
       (fst (GameLoop.tick (fun _ => NaN) (fun _ => "") 6000 true [Examples.running])).
Proof.
  assert (H : Forall Model.well_formed [Examples.running]).
  { constructor; [|constructor]. well_formed_task. }
  destruct (operations_keep_well_formed (fun _ => NaN) (fun _ => "") (fun s => s)
              [Examples.running] H) as (Htick & _ & Htoggle & _).
  split; [exact H|]. split; [apply Htoggle | apply Htick].
Defined.

(** ** The board *)

Lemma find_task_id (tasks : list Task) (id0 : string) (task : Task) :
  TaskDashboard.find_task tasks id0 = Some task -> id task = Str id0.
Proof.
  unfold TaskDashboard.find_task. intros H. apply find_some in H.
  destruct H as [_ H]. unfold is_string in H.
  destruct (id task) as [| | | |s]; try discriminate.
  apply String.eqb_eq in H. congruence.
Qed.

(** X6.  The reward a card shows is the reward a click on it earns: for
    a task that can be completed, [handleCompleteTask] at time [now]
    awards exactly the amount the board displays at [now], halved when
    and only when the card is marked overdue. *)
Theorem shown_reward_is_earned (finishingTaskIds : list string) (tasks : list Task)
  (id0 : string) (now : Z) (task : Task) :
  existsb (String.eqb id0) finishingTaskIds = false ->
  TaskDashboard.find_task tasks id0 = Some task ->
  completed task = false ->
  TaskDashboard.handleCompleteTask finishingTaskIds tasks id0 now
  = Some (Board.shownExp now finishingTaskIds task,
          negb (Board.isOverdue now finishingTaskIds task)).
Proof.
  intros Hfin Hfind Hopen. unfold TaskDashboard.handleCompleteTask.
  rewrite Hfin, Hfind, Hopen.
  assert (Hsame : Board.isOverdue now finishingTaskIds task
                  = TaskDashboard.pastDeadline task now).
  { unfold Board.isOverdue, TaskDashboard.pastDeadline, Board.isFinishing.
    rewrite (find_task_id tasks id0 task Hfind).
    change (existsb (is_string (Str id0)) finishingTaskIds)
      with (existsb (String.eqb id0) finishingTaskIds).
    rewrite Hfin. destruct (deadline task) as [d|]; [|reflexivity].
    rewrite andb_true_r. destruct d; reflexivity. }
  unfold Board.shownExp. rewrite Hsame.
  destruct (TaskDashboard.pastDeadline task now); reflexivity.
Qed.

Lemma shown_reward_is_earned_witness :
  TaskDashboard.handleCompleteTask []
    [Examples.quest "1" 100 (Some (Instant 1000))] "1" 2000
  = Some (Board.shownExp 2000 [] (Examples.quest "1" 100 (Some (Instant 1000))), false)
  /\ Board.shownExp 2000 [] (Examples.quest "1" 100 (Some (Instant 1000))) = int 50.
Proof.
  split; [|reflexivity].
  exact (shown_reward_is_earned [] [Examples.quest "1" 100 (Some (Instant 1000))]
           "1" 2000 (Examples.quest "1" 100 (Some (Instant 1000)))
           eq_refl eq_refl eq_refl).
Defined.

Lemma filter_complement_length {A : Type} (f g : A -> bool) (xs : list A) :
  (forall x, g x = negb (f x)) ->
  (length (List.filter f xs) + length (List.filter g xs))%nat = length xs.
Proof.
  intros Hfg. induction xs as [|x xs IH]; [reflexivity|].
  simpl. rewrite (Hfg x). destruct (f x); simpl; lia.
Qed.

(** X7.  The board and the history split the collection: outside the
    completion animation every task is on exactly one of the two, the
    board showing the tasks neither completed nor abandoned.  Completing
    or abandoning a task moves every task with that id to the history;
    while a task is finishing it stays on the board. *)
Theorem board_and_history_partition (tasks : list Task) :
  (length (Board.activeTasks [] tasks) + length (History.historyTasks tasks))%nat
  = length tasks
  /\ (forall t, In t tasks ->
        (In t (Board.activeTasks [] tasks) <-> ~ In t (History.historyTasks tasks)))
  /\ (forall id0 earned isOnTime stamp t',
        In t' (snd (TaskDashboard.finishCompletion (fun amount : number => amount)
                      id0 earned isOnTime stamp tasks)) ->
        is_string (id t') id0 = true ->
        In t' (History.historyTasks
                 (snd (TaskDashboard.finishCompletion (fun amount : number => amount)
                         id0 earned isOnTime stamp tasks)))
        /\ ~ In t' (Board.activeTasks []
                      (snd (TaskDashboard.finishCompletion
                              (fun amount : number => amount)
                              id0 earned isOnTime stamp tasks))))
  /\ (forall id0 stamp t',
        id0 <> "" ->
        In t' (fst (TaskDashboard.confirmDelete (Some id0) stamp tasks)) ->
        is_string (id t') id0 = true ->
        In t' (History.historyTasks
                 (fst (TaskDashboard.confirmDelete (Some id0) stamp tasks)))
        /\ ~ In t' (Board.activeTasks []
                      (fst (TaskDashboard.confirmDelete (Some id0) stamp tasks))))
  /\ (forall finishingTaskIds t,
        In t tasks -> Board.isFinishing finishingTaskIds t = true ->
        In t (Board.activeTasks finishingTaskIds tasks)).
Proof.
  assert (Hcompl : forall t : Task,
             completed t || Profile.is_set (deleted t)
             = negb ((negb (completed t) && negb (Profile.is_set (deleted t)))
                     || Board.isFinishing [] t)).
  { intros t. unfold Board.isFinishing. simpl.
    destruct (completed t), (Profile.is_set (deleted t)); reflexivity. }
  assert (Hmoved : forall (l : list Task) (t' : Task),
             In t' l -> completed t' || Profile.is_set (deleted t') = true ->
             In t' (History.historyTasks l) /\ ~ In t' (Board.activeTasks [] l)).
  { intros l t' Hin Hdone. unfold History.historyTasks, Board.activeTasks.
    rewrite !filter_In. split; [auto|]. intros [_ Hact].
    rewrite Hcompl in Hdone. rewrite Hact in Hdone. discriminate. }
  splits.
  - unfold Board.activeTasks, History.historyTasks.
    apply filter_complement_length. exact Hcompl.
  - intros t Hin. unfold Board.activeTasks, History.historyTasks.
    rewrite !filter_In, Hcompl.
    destruct ((negb (completed t) && negb (Profile.is_set (deleted t)))
              || Board.isFinishing [] t); simpl; intuition discriminate.
  - intros id0 earned isOnTime stamp t' Hin Hid. apply Hmoved; [exact Hin|].
    simpl in Hin. apply in_map_iff in Hin. destruct Hin as (t & Ht & _).
    destruct (is_string (id t) id0) eqn:E; subst t'; [reflexivity|congruence].
  - intros id0 stamp t' Hne Hin Hid. apply Hmoved; [exact Hin|].
    unfold TaskDashboard.confirmDelete in Hin.
    assert (E : negb (String.eqb id0 "") = true)
      by (apply negb_true_iff, String.eqb_neq; exact Hne).
    rewrite E in Hin. simpl in Hin. apply in_map_iff in Hin.
    destruct Hin as (t & Ht & _).
    destruct (is_string (id t) id0) eqn:E'; subst t';
      [simpl; apply orb_true_r | congruence].
  - intros finishingTaskIds t Hin Hfin. unfold Board.activeTasks.
    apply filter_In. split; [exact Hin|]. rewrite Hfin. apply orb_true_r.
Qed.

(** X8.  A task that was just added and is then completed earns the
    reward of its priority, 100, 50 or 25, or half of it rounded down,
    50, 25 or 12, when its deadline has passed; the new task is found by
    its id before any older task. *)
Theorem new_task_reward (trim : string -> string) (NumberToString : number -> string)
  (now now' : Z) (title0 : string) (p : Priority) (due : datestr) (tasks : list Task) :
  trim title0 <> "" ->
  TaskDashboard.handleCompleteTask []
    (Board.addTask trim NumberToString now title0 p due tasks)
    (NumberToString (int now)) now'
  = Some (match due with
          | Instant d =>
              if (d <? now')%Z
              then (match p with HIGH => int 50 | MEDIUM => int 25 | LOW => int 12 end,
                    false)
              else (match p with HIGH => int 100 | MEDIUM => int 50 | LOW => int 25 end,
                    true)
          | _ => (match p with HIGH => int 100 | MEDIUM => int 50 | LOW => int 25 end,
                  true)
          end).
Proof.
  intros Htitle. unfold Board.addTask.
  apply String.eqb_neq in Htitle. rewrite Htitle.
  unfold TaskDashboard.handleCompleteTask, TaskDashboard.find_task.
  cbn [existsb List.find id is_string]. rewrite String.eqb_refl.
  cbn [completed]. rewrite pastDeadline_spec. unfold Spec.deadline_passed.
  cbn [deadline exp]. destruct due as [| |d]; cbn [Board.or_undefined truthy_date].
  - destruct p; reflexivity.
  - destruct p; reflexivity.
  - destruct (d <? now')%Z; destruct p; reflexivity.
Qed.

Lemma new_task_reward_witness :
  TaskDashboard.handleCompleteTask []
    (Board.addTask (fun s => s) (fun _ => "1700000000000") 1700000000000
       "write report" LOW (Instant 1700000001000) [])
    "1700000000000" 1700000002000
  = Some (int 12, false).
Proof.
  assert (H : "write report" <> "") by discriminate.
  exact (new_task_reward (fun s => s) (fun _ => "1700000000000") 1700000000000
           1700000002000 "write report" LOW (Instant 1700000001000) [] H).
Defined.

(** ** Lifetime experience *)

Lemma add_int (a b : Z) : add (int a) (int b) = int (a + b).
Proof.
  unfold add, int. f_equal. unfold Qplus, inject_Z. cbn [Qnum Qden].
  rewrite !Z.mul_1_r. reflexivity.
Qed.

Lemma sub_int (a b : Z) : sub (int a) (int b) = int (a - b).
Proof.
  unfold sub, int. f_equal. unfold Qminus, Qplus, Qopp, inject_Z. cbn [Qnum Qden].
  rewrite !Z.mul_1_r. reflexivity.
Qed.

Lemma next_threshold_int (n : Z) :
  Math_floor (mul (int n) (Fin 1.5)) = int (3 * n / 2).
Proof.
  unfold mul, int, Math_floor, int. f_equal. f_equal.
  unfold Qfloor, Qmult, inject_Z. cbn [Qnum Qden].
  change (Z.pos (1 * 10)) with (2 * 5)%Z.
  replace (n * 15)%Z with (3 * n * 5)%Z by lia.
  apply Z.div_mul_cancel_r; discriminate.
Qed.

Lemma ge_int (a b : Z) : ge (int a) (int b) = (b <=? a)%Z.
Proof. unfold ge. apply le_int. Qed.

Lemma threshold_ge (k : nat) : (100 <= Model.threshold k)%Z.
Proof.
  induction k as [|k IH]; simpl; [lia|].
  apply Z.div_le_lower_bound; lia.
Qed.

(** The level-up loop walks along the curve. *)
Lemma levelUp_on_curve (fuel : nat) :
  forall (k : nat) (c : Z),
    (c < Z.of_nat fuel)%Z ->
    exists k' c',
      Engine.levelUp fuel (int c) (int (Z.of_nat k + 1)) (int (Model.threshold k))
      = Some (int c', int (Z.of_nat k' + 1), int (Model.threshold k'))
      /\ (k <= k')%nat /\ (c' < Model.threshold k')%Z
      /\ (c + Model.spent k = c' + Model.spent k')%Z
      /\ (0 <= c -> 0 <= c')%Z.
Proof.
  induction fuel as [|fuel IH]; intros k c Hfuel.
  - pose proof (threshold_ge k). exists k, c.
    rewrite levelUp_exit by (rewrite ge_int; apply Z.leb_gt; lia).
    repeat split; auto; lia.
  - pose proof (threshold_ge k) as Hk. rewrite levelUp_unfold, ge_int.
    destruct (Model.threshold k <=? c)%Z eqn:E.
    + apply Z.leb_le in E.
      rewrite sub_int, add_int, next_threshold_int.
      replace (Z.of_nat k + 1 + 1)%Z with (Z.of_nat (S k) + 1)%Z by lia.
      change (3 * Model.threshold k / 2)%Z with (Model.threshold (S k)).
      destruct (IH (S k) (c - Model.threshold k)%Z) as (k' & c' & Hrun & Hk' & Hc' & Hsum & Hpos);
        [lia|].
      exists k', c'. split; [exact Hrun|]. split; [lia|]. split; [exact Hc'|].
      split; [simpl in Hsum; lia|]. intros _. apply Hpos. lia.
    + apply Z.leb_gt in E. exists k, c. repeat split; auto; lia.
Qed.

Lemma lifetimeLoop_exit (fuel : nat) (l total required level : number) :
  lt l level = false -> Stats.lifetimeLoop fuel l total required level = Some total.
Proof. intros H. destruct fuel; simpl; rewrite H; reflexivity. Qed.

Lemma lifetimeLoop_unfold (fuel : nat) (l total required level : number) :
  lt l level = true ->
  Stats.lifetimeLoop (S fuel) l total required level
  = Stats.lifetimeLoop fuel (add l (int 1)) (add total required)
                       (Math_floor (mul required (Fin 1.5))) level.
Proof. intros H. simpl. rewrite H. reflexivity. Qed.

(** The loop of [getTotalLifetimeXP] walks along the same curve. *)
Lemma lifetimeLoop_on_curve (j : nat) :
  forall (fuel i : nat),
    (j <= fuel)%nat ->
    Stats.lifetimeLoop fuel (int (Z.of_nat i + 1)) (int (Model.spent i))
                       (int (Model.threshold i)) (int (Z.of_nat (i + j) + 1))
    = Some (int (Model.spent (i + j))).
Proof.
  induction j as [|j IH]; intros fuel i Hfuel.
  - rewrite Nat.add_0_r. apply lifetimeLoop_exit. rewrite lt_int. apply Z.ltb_irrefl.
  - destruct fuel as [|fuel]; [lia|].
    rewrite lifetimeLoop_unfold by (rewrite lt_int; apply Z.ltb_lt; lia).
    rewrite !add_int, next_threshold_int.
    replace (Z.of_nat i + 1 + 1)%Z with (Z.of_nat (S i) + 1)%Z by lia.
    change (3 * Model.threshold i / 2)%Z with (Model.threshold (S i)).
    change (Model.spent i + Model.threshold i)%Z with (Model.spent (S i)).
    replace (i + S j)%nat with (S i + j)%nat by lia.
    apply IH. lia.
Qed.

Lemma lifetime_on_curve (fuel k : nat) (c : Z) (s : UserStats) :
  Model.on_curve k c s -> (k <= fuel)%nat ->
  Stats.getTotalLifetimeXP fuel s = Some (int (Model.spent k + c)).
Proof.
  intros (Hl & _ & Hc) Hfuel. unfold Stats.getTotalLifetimeXP. rewrite Hl, Hc.
  change (int 1) with (int (Z.of_nat 0 + 1)). change (int 0) with (int (Model.spent 0)).
  change (int 100) with (int (Model.threshold 0)).
  pose proof (lifetimeLoop_on_curve k fuel 0 Hfuel) as H. simpl Nat.add in H.
  rewrite H, add_int. reflexivity.
Qed.

(** One call of [addExp] on the curve. *)
Lemma addExp_on_curve (k : nat) (c a : Z) (s : UserStats) :
  Model.on_curve k c s ->
  exists (fuel0 k' : nat) (c' : Z) (s' : UserStats),
    (forall fuel, (fuel0 <= fuel)%nat ->
       Engine.addExp fuel s (int a) = Some s'
       /\ Stats.getTotalLifetimeXP fuel s = Some (int (Model.spent k + c))
       /\ Stats.getTotalLifetimeXP fuel s' = Some (int (Model.spent k + c + a)))
    /\ Model.on_curve k' c' s'
    /\ (k <= k')%nat /\ (c' < Model.threshold k')%Z
    /\ (0 <= c + a -> 0 <= c')%Z
    /\ (Model.spent k + c + a = Model.spent k' + c')%Z.
Proof.
  intros Hs. pose proof Hs as (Hl & Hn & Hc).
  set (f1 := Z.to_nat (Z.max 0 (c + a + 1))).
  destruct (levelUp_on_curve f1 k (c + a)%Z) as (k' & c' & Hrun & Hk' & Hc' & Hsum & Hpos);
    [subst f1; lia|].
  exists (Nat.max f1 k'), k', c',
    (Engine.with_progress s (int (Z.of_nat k' + 1)) (int c') (int (Model.threshold k'))).
  assert (Hs' : Model.on_curve k' c'
                  (Engine.with_progress s (int (Z.of_nat k' + 1)) (int c')
                     (int (Model.threshold k')))).
  { repeat split. }
  split; [|splits; auto; lia].
  intros fuel Hfuel. split; [|split].
  - unfold Engine.addExp. rewrite Hc, Hl, Hn, add_int. cbn [isNaN int].
    fold (int (c + a)).
    rewrite (levelUp_more_fuel f1 fuel _ _ _ _ Hrun) by lia. reflexivity.
  - apply (lifetime_on_curve fuel k c s Hs). lia.
  - rewrite (lifetime_on_curve fuel k' c' _ Hs') by lia. f_equal. f_equal. lia.
Qed.


Lemma initial_on_curve : Model.on_curve 0 0 Engine.INITIAL_USER.
Proof. repeat split. Qed.


Lemma last_cons {A : Type} (x d : A) (l : list A) :
  List.last (x :: l) d = List.last l x.
Proof.
  revert x d. induction l as [|y l IH]; intros x d; [reflexivity|].
  change (List.last (x :: y :: l) d) with (List.last (y :: l) d).
  rewrite (IH y d), (IH y x). reflexivity.
Qed.

Lemma calls_on_curve (amounts : list Z) :
  forall (k : nat) (c : Z) (s : UserStats),
    Model.on_curve k c s ->
    exists (fuel0 : nat) (trace : list UserStats),
      forall fuel, (fuel0 <= fuel)%nat ->
        Spec.calls (Engine.addExp fuel) s (map int amounts) = Some trace
        /\ Stats.getTotalLifetimeXP fuel (List.last trace s)
           = Some (int (Model.spent k + c + fold_right Z.add 0%Z amounts)).
Proof.
  induction amounts as [|a rest IH]; intros k c s Hs.
  - exists k, []. intros fuel Hfuel. split; [reflexivity|].
    simpl. rewrite (lifetime_on_curve fuel k c s Hs Hfuel). f_equal. f_equal. lia.
  - destruct (addExp_on_curve k c a s Hs)
      as (f1 & k' & c' & s' & Hrun & Hs' & _ & _ & _ & Hsum).
    destruct (IH k' c' s' Hs') as (f2 & trace & Hrest).
    exists (Nat.max f1 f2), (s' :: trace). intros fuel Hfuel.
    destruct (Hrun fuel) as (Hadd & _); [lia|].
    destruct (Hrest fuel) as (Hcalls & Hlife); [lia|].
    split.
    + cbn [map Spec.calls]. rewrite Hadd, Hcalls. reflexivity.
    + rewrite last_cons. rewrite Hlife. f_equal. f_equal. cbn [fold_right]. lia.
Qed.


(** ** Rates are percentages *)

Lemma percentage_bounds (onTime total : nat) :
  (onTime <= total)%nat -> total <> 0%nat ->
  exists r : Z, Profile.percentage onTime total = int r /\ (0 <= r <= 100)%Z.
Proof.
  intros Hle Hn. rewrite percentage_spec by exact Hn.
  eexists. split; [reflexivity|]. split.
  - apply Z.div_pos; lia.
  - assert ((200 * Z.of_nat onTime + Z.of_nat total) / (2 * Z.of_nat total) < 101)%Z;
      [|lia].
    apply Z.div_lt_upper_bound; lia.
Qed.

Lemma filter_length_mono {A : Type} (f g : A -> bool) (xs : list A) :
  (forall x, f x = true -> g x = true) ->
  (length (List.filter f xs) <= length (List.filter g xs))%nat.
Proof.
  intros Hfg. induction xs as [|x xs IH]; [reflexivity|].
  simpl. destruct (f x) eqn:E.
  - rewrite (Hfg x E). simpl. lia.
  - destruct (g x); simpl; lia.
Qed.

Lemma filter_length_bound {A : Type} (f : A -> bool) (xs : list A) :
  (length (List.filter f xs) <= length xs)%nat.
Proof.
  induction xs as [|x xs IH]; [reflexivity|]. simpl. destruct (f x); simpl; lia.
Qed.

(** X11.  Every rate the profile shows is a whole percentage between 0
    and 100: the global success rate, the rate of the Monk Mode session
    and the rate of each day of the seven-day graph; and a session never
    counts more on-time tasks than it has tasks. *)
Theorem rates_are_percentages (stats : UserStats) (tasks : list Task)
  (dayStart dayEnd : Z) :
  (exists r : Z, Profile.successRate tasks = int r /\ (0 <= r <= 100)%Z)
  /\ (exists r : Z,
        Profile.rate (Profile.getSessionStats stats tasks) = int r
        /\ (0 <= r <= 100)%Z)
  /\ (Profile.onTime (Profile.getSessionStats stats tasks)
      <= Profile.total (Profile.getSessionStats stats tasks))%nat
  /\ (exists r : Z,
        fst (Profile.dayRate dayStart dayEnd tasks) = int r /\ (0 <= r <= 100)%Z).
Proof.
  assert (Hfull : exists r : Z, int 100 = int r /\ (0 <= r <= 100)%Z)
    by (exists 100%Z; split; [reflexivity | lia]).
  splits.
  - unfold Profile.successRate.
    destruct (0 <? Profile.totalAttempts tasks)%nat eqn:E; [|exact Hfull].
    apply Nat.ltb_lt in E. apply percentage_bounds; [|lia].
    unfold Profile.totalAttempts, Profile.onTimeQuests, Profile.completedTasks.
    pose proof (filter_length_mono Profile.onTimeTask completed tasks) as H.
    assert (forall x, Profile.onTimeTask x = true -> completed x = true).
    { intros x Hx. unfold Profile.onTimeTask in Hx.
      apply andb_true_iff in Hx. tauto. }
    specialize (H H0). lia.
  - unfold Profile.getSessionStats.
    destruct (monkMode stats) as [m|]; [|exact Hfull].
    destruct (startDate m) as [sd|]; [|exact Hfull].
    destruct (negb (truthy_date (Some sd))); [exact Hfull|].
    destruct (isNaN (getTime sd)); [exact Hfull|].
    destruct (length (List.filter (Profile.inSession sd) tasks) =? 0)%nat eqn:E;
      [exact Hfull|].
    apply Nat.eqb_neq in E. cbn [Profile.rate].
    apply percentage_bounds; [apply filter_length_bound | exact E].
  - unfold Profile.getSessionStats.
    destruct (monkMode stats) as [m|]; [|reflexivity].
    destruct (startDate m) as [sd|]; [|reflexivity].
    destruct (negb (truthy_date (Some sd))); [reflexivity|].
    destruct (isNaN (getTime sd)); [reflexivity|].
    destruct (length (List.filter (Profile.inSession sd) tasks) =? 0)%nat;
      [reflexivity|].
    cbn [Profile.onTime Profile.total]. apply filter_length_bound.
  - unfold Profile.dayRate.
    destruct (length (Profile.dayTasks dayStart dayEnd tasks) =? 0)%nat eqn:E.
    + exists 0%Z. split; [reflexivity | lia].
    + apply Nat.eqb_neq in E. cbn [fst].
      apply percentage_bounds; [apply filter_length_bound | exact E].
Qed.

(** ** The length of a Monk Mode session *)

(** The tick effect on an active session with a start that parses. *)
Lemma milestoneEffect_active (now start : Z) (stats : UserStats) (m : MonkMode) :
  monkMode stats = Some m -> isActive m = true ->
  startDate m = Some (Instant start) ->
  unlockedMonkModes (fst (Profile.milestoneEffect now stats))
  = unlockedMonkModes stats
    ++ map (fun ms => int (Profile.d ms))
         (List.filter
            (Spec.newly_reached (Profile.elapsedDays now (int start))
                                (unlockedMonkModes stats))
            Profile.MONK_MILESTONES)
  /\ monkMode (fst (Profile.milestoneEffect now stats))
     = (if ge (Profile.elapsedDays now (int start)) (totalDays m)
        then Some (Profile.inactive (Some m)) else Some m)
  /\ snd (Profile.milestoneEffect now stats)
     = (if ge (Profile.elapsedDays now (int start)) (totalDays m)
        then Some (Profile.ProtocolComplete (durationLabel m)) else None).
Proof.
  intros Hm Hactive Hstart.
  pose proof (unlock_fold (Profile.elapsedDays now (int start))
                (unlockedMonkModes stats) Profile.MONK_MILESTONES
                [] false milestones_distinct (fun _ _ H => H)) as Hfold.
  cbn [map app] in Hfold. rewrite app_nil_r in Hfold.
  rewrite map_map in Hfold. cbn [orb] in Hfold.
  unfold Profile.milestoneEffect.
  rewrite Hm, Hstart, Hactive. cbn [truthy_date andb getTime isNaN int].
  rewrite Hfold.
  destruct (ge (Profile.elapsedDays now (int start)) (totalDays m)).
  - cbn [fst snd Profile.with_unlocked Profile.with_monkMode unlockedMonkModes
         monkMode]. splits; reflexivity.
  - destruct (existsb _ _) eqn:E.
    + cbn [fst snd Profile.with_unlocked unlockedMonkModes monkMode]. splits; auto.
    + rewrite (existsb_false_filter _ _ E). cbn [map fst snd].
      rewrite app_nil_r. splits; auto.
Qed.

(** X12.  A session started at [now] for [days] days is active, and the
    tick effect at time [t] ends it, with the completion notice, exactly
    when [days] whole days separate [t] from [now]; before that it stays
    active and nothing is shown.  Whenever the tick runs, every milestone
    whose days have elapsed is in the unlocked list afterwards. *)
Theorem session_lasts_totalDays (now days t : Z) (label : string)
  (prev : UserStats) (ui : Profile.UI) :
  Profile.activeSession (fst (Profile.startMonkMode now days label (prev, ui))) = true
  /\ Profile.activeSession
       (fst (Profile.milestoneEffect t
               (fst (Profile.startMonkMode now days label (prev, ui)))))
     = negb (days * 86400000 <=? Z.abs (t - now))%Z
  /\ snd (Profile.milestoneEffect t
            (fst (Profile.startMonkMode now days label (prev, ui))))
     = (if (days * 86400000 <=? Z.abs (t - now))%Z
        then Some (Profile.ProtocolComplete label) else None)
  /\ (forall ms, In ms Profile.MONK_MILESTONES ->
        (Profile.d ms * 86400000 <= Z.abs (t - now))%Z ->
        includes
          (unlockedMonkModes
             (fst (Profile.milestoneEffect t
                     (fst (Profile.startMonkMode now days label (prev, ui))))))
          (int (Profile.d ms)) = true).
Proof.
  set (m := {| isActive := true; startDate := Some (toISOString now);
               endDate := Some (toISOString (now + days * 24 * 60 * 60 * 1000));
               durationLabel := label; totalDays := int days;
               minSuccessRate := Some (int 50) |}).
  assert (Hstarted : fst (Profile.startMonkMode now days label (prev, ui))
                     = Profile.with_monkMode prev m) by reflexivity.
  rewrite Hstarted.
  destruct (milestoneEffect_active t now (Profile.with_monkMode prev m) m
              eq_refl eq_refl eq_refl) as (Hlist & Hmode & Hnotice).
  cbn [totalDays m] in Hmode, Hnotice. rewrite elapsedDays_ge in Hmode, Hnotice.
  splits.
  - reflexivity.
  - unfold Profile.activeSession. rewrite Hmode.
    destruct (days * 86400000 <=? Z.abs (t - now))%Z; reflexivity.
  - rewrite Hnotice. destruct (days * 86400000 <=? Z.abs (t - now))%Z; reflexivity.
  - intros ms Hin Hreached. rewrite Hlist, includes_app.
    destruct (includes (unlockedMonkModes (Profile.with_monkMode prev m))
                       (int (Profile.d ms))) eqn:E; [reflexivity|].
    cbn [orb]. unfold includes. apply existsb_exists.
    exists (int (Profile.d ms)). split.
    + apply (in_map (fun ms => int (Profile.d ms))). apply filter_In.
      split; [exact Hin|]. unfold Spec.newly_reached.
      rewrite elapsedDays_ge, E.
      replace (Profile.d ms * 86400000 <=? Z.abs (t - now))%Z with true
        by (symmetry; apply Z.leb_le; exact Hreached).
      reflexivity.
    + rewrite same_int. apply Z.eqb_refl.
Qed.

(** ** The countdown *)

Lemma floor_div_int (a b : Z) :
  b <> 0%Z -> Math_floor (div (int a) (int b)) = int (a / b).
Proof.
  intros Hb. unfold div, int. rewrite Qeq_bool_inject_Z_0 by exact Hb.
  unfold Math_floor, int. rewrite <- Zdiv_Qdiv. reflexivity.
Qed.

Lemma rem_int (a b : Z) :
  (0 <= a)%Z -> (0 < b)%Z -> Coerce.rem (int a) (int b) = int (a mod b).
Proof.
  intros Ha Hb. unfold Coerce.rem, int.
  rewrite Qeq_bool_inject_Z_0 by lia.
  assert (Hq : Qle_bool 0 (inject_Z a / inject_Z b) = true).
  { apply Qle_bool_iff. apply Qle_shift_div_l.
    - change 0%Q with (inject_Z 0). rewrite <- Zlt_Qlt. exact Hb.
    - rewrite Qmult_0_l. change 0%Q with (inject_Z 0). rewrite <- Zle_Qle. exact Ha. }
  rewrite Hq, <- Zdiv_Qdiv. f_equal.
  unfold Qminus, Qplus, Qopp, Qmult, inject_Z. cbn [Qnum Qden].
  f_equal. rewrite (Z.mod_eq a b) by lia. lia.
Qed.

(** X13.  For an active session started at [start], the countdown at a
    time [now] not before [start] is the decomposition of the elapsed
    milliseconds into whole days, hours below 24 and minutes below 60,
    exact to the minute. *)
Theorem countdown_decomposes (now start : Z) (stats : UserStats) (m : MonkMode) :
  monkMode stats = Some m -> isActive m = true ->
  startDate m = Some (Instant start) -> (start <= now)%Z ->
  exists dd hh mm : Z,
    Stats.formatCountdown now stats
    = Some {| Stats.days := int dd; Stats.hours := int hh; Stats.minutes := int mm |}
    /\ (0 <= dd)%Z /\ (0 <= hh < 24)%Z /\ (0 <= mm < 60)%Z
    /\ (dd * 86400000 + hh * 3600000 + mm * 60000 <= now - start
        < dd * 86400000 + hh * 3600000 + mm * 60000 + 60000)%Z.
Proof.
  intros Hm Hactive Hstart Hle.
  set (e := (now - start)%Z).
  exists (e / 86400000)%Z, ((e mod 86400000) / 3600000)%Z, ((e mod 3600000) / 60000)%Z.
  split.
  - unfold Stats.formatCountdown. rewrite Hm, Hstart, Hactive.
    cbn [truthy_date negb orb getTime isNaN int]. fold (int start).
    rewrite sub_int. fold e.
    change (1000 * 60 * 60 * 24)%Z with 86400000%Z.
    change (1000 * 60 * 60)%Z with 3600000%Z.
    change (1000 * 60)%Z with 60000%Z.
    rewrite !rem_int by (subst e; lia).
    rewrite !floor_div_int by discriminate. reflexivity.
  - assert (He : (0 <= e)%Z) by (subst e; lia).
    pose proof (Z.div_mod e 86400000 ltac:(discriminate)) as H1.
    pose proof (Z.mod_pos_bound e 86400000 ltac:(reflexivity)) as B1.
    pose proof (Z.div_mod (e mod 86400000) 3600000 ltac:(discriminate)) as H2.
    pose proof (Z.mod_pos_bound (e mod 86400000) 3600000 ltac:(reflexivity)) as B2.
    pose proof (Z.div_mod (e mod 3600000) 60000 ltac:(discriminate)) as H3.
    pose proof (Z.mod_pos_bound (e mod 3600000) 60000 ltac:(reflexivity)) as B3.
    pose proof (Z.mod_pos_bound e 3600000 ltac:(reflexivity)) as B4.
    assert (Hmm : ((e mod 86400000) mod 3600000 = e mod 3600000)%Z).
    { apply Z.mod_mod_divide. exists 24%Z. reflexivity. }
    assert (0 <= e / 86400000)%Z by (apply Z.div_pos; lia).
    assert (0 <= (e mod 86400000) / 3600000)%Z by (apply Z.div_pos; lia).
    assert (0 <= (e mod 3600000) / 60000)%Z by (apply Z.div_pos; lia).
    assert ((e mod 86400000) / 3600000 < 24)%Z
      by (apply Z.div_lt_upper_bound; lia).
    assert ((e mod 3600000) / 60000 < 60)%Z
      by (apply Z.div_lt_upper_bound; lia).
    subst e. lia.
Qed.

Lemma countdown_decomposes_witness :
  exists dd hh mm : Z,
    Stats.formatCountdown (1000 + 93785000) (fst Examples.novice)
    = Some {| Stats.days := int dd; Stats.hours := int hh; Stats.minutes := int mm |}
    /\ (0 <= hh < 24)%Z /\ (0 <= mm < 60)%Z.
Proof.
  assert (Hle : (1000 <= 1000 + 93785000)%Z) by discriminate.
  destruct (countdown_decomposes (1000 + 93785000) 1000 (fst Examples.novice)
              Examples.sevenDays eq_refl eq_refl eq_refl Hle)
    as (dd & hh & mm & Heq & _ & Hh & Hm & _).
  exists dd, hh, mm. auto.
Defined.

(** ** The guild hall *)

Lemma find_map_mirrored (u : UserStats) (ms : list GuildMember) :
  List.find isUser (map (fun m => if isUser m then GuildHall.mirrored u m else m) ms)
  = match List.find isUser ms with
    | Some m => Some (GuildHall.mirrored u m)
    | None => None
    end.
Proof.
  induction ms as [|m ms IH]; [reflexivity|]. simpl.
  destruct (isUser m) eqn:E; simpl; rewrite E; [reflexivity | exact IH].
Qed.

Lemma same_class_refl (c : Class) : GuildHall.same_class c c = true.
Proof. destruct c; reflexivity. Qed.

(** X14.  When the effect that mirrors the user's level and class into
    the guild writes, it keeps the guild's id, name, code and the order
    of its members, gives every member marked as the user the current
    level and class and leaves the other members alone; run again on
    what it wrote, it writes nothing, so the effect settles after one
    write, unless the level is NaN, in which case it writes every time. *)
Theorem guild_sync_settles (userStats : UserStats) (g g' : Guild) :
  GuildHall.syncUser userStats (Some g) = Some g' ->
  guild_id g' = guild_id g /\ guild_name g' = guild_name g /\ code g' = code g
  /\ length (members g') = length (members g)
  /\ (forall (i : nat) (m : GuildMember), members g !! i = Some m ->
        members g' !! i
        = Some (if isUser m
                then {| member_id := member_id m; member_name := member_name m;
                        member_level := level userStats;
                        member_class := class userStats; isUser := true |}
                else m))
  /\ (level userStats <> NaN -> GuildHall.syncUser userStats (Some g') = None)
  /\ (level userStats = NaN -> GuildHall.syncUser userStats (Some g') <> None).
Proof.
  unfold GuildHall.syncUser at 1.
  destruct (List.find isUser (members g)) as [cur|] eqn:Hfind; [|discriminate].
  destruct (Coerce.differ (member_level cur) (level userStats)
            || negb (GuildHall.same_class (member_class cur) (class userStats)));
    [|discriminate].
  intros H. injection H as <-. cbn [guild_id guild_name code members GuildHall.with_members].
  splits; try reflexivity.
  - apply length_map.
  - intros i m Hi.
    change (map ?f (members g)) with (f <$> members g).
    rewrite list_lookup_fmap, Hi. simpl.
    destruct (isUser m) eqn:E; [|reflexivity].
    unfold GuildHall.mirrored. rewrite E. reflexivity.
  - intros Hlevel. unfold GuildHall.syncUser.
    cbn [members GuildHall.with_members]. rewrite find_map_mirrored, Hfind.
    cbn [GuildHall.mirrored member_level member_class].
    rewrite same_class_refl. destruct (level userStats) as [|q]; [congruence|].
    simpl. rewrite Qeq_bool_refl. reflexivity.
  - intros Hlevel. unfold GuildHall.syncUser.
    cbn [members GuildHall.with_members]. rewrite find_map_mirrored, Hfind.
    cbn [GuildHall.mirrored member_level member_class].
    rewrite Hlevel. simpl. discriminate.
Qed.

Lemma guild_sync_settles_witness :
  exists g',
    GuildHall.syncUser Samples.veteran (Some Samples.party) = Some g'
    /\ length (members g') = 2%nat
    /\ GuildHall.syncUser Samples.veteran (Some g') = None.
Proof.
  eexists. split; [reflexivity|].
  destruct (guild_sync_settles Samples.veteran Samples.party _ eq_refl)
    as (_ & _ & _ & Hlen & _ & Hsettled & _).
  split; [exact Hlen|]. apply Hsettled. discriminate.
Defined.

Lemma with_members_same (g : Guild) : GuildHall.with_members g (members g) = g.
Proof. destruct g; reflexivity. Qed.

Lemma filter_all {A : Type} (f : A -> bool) (xs : list A) :
  (forall x, In x xs -> f x = true) -> List.filter f xs = xs.
Proof.
  induction xs as [|x xs IH]; intros H; [reflexivity|].
  simpl. rewrite (H x) by (left; reflexivity). f_equal. apply IH.
  intros y Hy. apply H. right. exact Hy.
Qed.

(** X15.  Adding a member and removing it again by its id gives back the
    guild as it was, provided no member already had that id; the added
    member never has level 0 or NaN (an unreadable level counts as 1);
    and after [removeMember] no member has the removed id, the user's
    own entry included. *)
Theorem member_added_then_removed (trim : string -> string)
  (NumberToString : number -> string) (parseInt : string -> number)
  (now : Z) (newMemberName newMemberLevel : string) (newMemberClass : Class)
  (g : Guild) :
  trim newMemberName <> "" ->
  (forall m, In m (members g) -> member_id m <> NumberToString (int now)) ->
  (exists g1,
     GuildHall.addMember trim NumberToString parseInt now newMemberName
       newMemberLevel newMemberClass (Some g) = Some g1
     /\ length (members g1) = S (length (members g))
     /\ (forall m, In m (members g1) -> In m (members g)
                   \/ (isUser m = false /\ truthy_number (member_level m) = true))
     /\ GuildHall.removeMember (NumberToString (int now)) (Some g1) = Some g)
  /\ (forall id0 g2,
        GuildHall.removeMember id0 (Some g) = Some g2 ->
        forall m, In m (members g2) -> In m (members g) /\ member_id m <> id0).
Proof.
  intros Hname Hfresh. split.
  - unfold GuildHall.addMember. apply String.eqb_neq in Hname. rewrite Hname.
    eexists. split; [reflexivity|].
    cbn [members GuildHall.with_members]. splits.
    + rewrite length_app. simpl. lia.
    + intros m Hin. apply in_app_or in Hin. destruct Hin as [Hin|[<-|[]]]; [auto|].
      right. split; [reflexivity|]. cbn [member_level].
      destruct (truthy_number (parseInt newMemberLevel)) eqn:E; [exact E|reflexivity].
    + unfold GuildHall.removeMember. cbn [members GuildHall.with_members].
      f_equal. rewrite List.filter_app. cbn [List.filter member_id].
      rewrite String.eqb_refl. cbn [negb]. rewrite app_nil_r.
      rewrite filter_all.
      * destruct g; reflexivity.
      * intros m Hin. apply negb_true_iff, String.eqb_neq. apply Hfresh. exact Hin.
  - intros id0 g2 H. injection H as <-. intros m Hin.
    cbn [members GuildHall.with_members] in Hin. apply filter_In in Hin.
    destruct Hin as [Hin Hne]. split; [exact Hin|].
    apply negb_true_iff, String.eqb_neq in Hne. exact Hne.
Qed.

Lemma member_added_then_removed_witness :
  exists g1,
    GuildHall.addMember (fun s => s) (fun _ => "1700000009000") (fun _ => NaN)
      1700000009000 "Bob" "seven" Warrior (Some Samples.party) = Some g1
    /\ length (members g1) = 3%nat
    /\ GuildHall.removeMember "1700000009000" (Some g1) = Some Samples.party.
Proof.
  assert (Hname : "Bob" <> "") by discriminate.
  assert (Hfresh : forall m, In m (members Samples.party) ->
                             member_id m <> "1700000009000").
  { intros m [<-|[<-|[]]]; discriminate. }
  destruct (member_added_then_removed (fun s => s) (fun _ => "1700000009000")
              (fun _ => NaN) 1700000009000 "Bob" "seven" Warrior Samples.party
              Hname Hfresh) as ((g1 & Hadd & Hlen & _ & Hback) & _).
  exists g1. split; [exact Hadd|]. split; [exact Hlen | exact Hback].
Defined.

(** ** Importing a save document: success and rollback *)

Lemma find_task_none (ts : list Task) (keys : list string) (k : string) :
  map id ts = map Str keys -> ~ In k keys -> TaskDashboard.find_task ts k = None.
Proof.
  revert keys. induction ts as [|t ts IH]; intros keys Hids Hk; [reflexivity|].
  destruct keys as [|k0 keys]; [discriminate|].
  simpl in Hids. injection Hids as Hid Hrest.
  unfold TaskDashboard.find_task. simpl. rewrite Hid. simpl.
  destruct (String.eqb k0 k) eqn:E.
  - apply String.eqb_eq in E. subst. exfalso. apply Hk. left. reflexivity.
  - apply (IH keys Hrest). intros Hin. apply Hk. right. exact Hin.
Qed.

(** [bulkAdd] succeeds on tasks whose ids are distinct strings not yet in
    the table, and then a key holds the task with that id. *)
Lemma bulkAdd_some (ts : list Task) :
  forall (table : gmap string Task) (keys : list string),
    map id ts = map Str keys -> NoDup keys ->
    (forall k, In k keys -> table !! k = None) ->
    exists m,
      Store.bulkAdd ts table = Some m
      /\ forall key,
           m !! key = match TaskDashboard.find_task ts key with
                      | Some t => Some t
                      | None => table !! key
                      end.
Proof.
  induction ts as [|t ts IH]; intros table keys Hids Hnodup Hfree.
  - exists table. split; reflexivity.
  - destruct keys as [|k keys]; [discriminate|].
    simpl in Hids. injection Hids as Hid Hrest.
    apply NoDup_cons in Hnodup. destruct Hnodup as [Hk Hnodup].
    rewrite list_elem_of_In in Hk.
    destruct (IH (<[k := t]> table) keys Hrest Hnodup) as (m & Hm & Hlookup).
    { intros k' Hk'. rewrite lookup_insert_ne; [apply Hfree; right; exact Hk'|].
      intros ->. contradiction. }
    exists m. split.
    + simpl. rewrite Hid, (Hfree k) by (left; reflexivity). exact Hm.
    + intros key. rewrite Hlookup.
      unfold TaskDashboard.find_task at 2. simpl. rewrite Hid. simpl.
      fold (TaskDashboard.find_task ts key).
      destruct (String.eqb k key) eqn:E.
      * apply String.eqb_eq in E. subst key.
        rewrite (find_task_none ts keys k Hrest Hk). apply lookup_insert_eq.
      * apply String.eqb_neq in E.
        destruct (TaskDashboard.find_task ts key); [reflexivity|].
        apply lookup_insert_ne. exact E.
Qed.

(** Conversely [bulkAdd] fails unless the ids are distinct strings. *)
Lemma bulkAdd_keys (ts : list Task) :
  forall (table m : gmap string Task),
    Store.bulkAdd ts table = Some m ->
    exists keys,
      map id ts = map Str keys /\ NoDup keys
      /\ forall k, In k keys -> table !! k = None.
Proof.
  induction ts as [|t ts IH]; intros table m H.
  - exists []. split; [reflexivity|]. split; [constructor|]. intros k [].
  - simpl in H. destruct (id t) as [| | | |k] eqn:Hid; try discriminate.
    destruct (table !! k) eqn:Hk; [discriminate|].
    destruct (IH _ _ H) as (keys & Hids & Hnodup & Hfree).
    exists (k :: keys). split; [simpl; congruence|]. split.
    + apply NoDup_cons. split; [|exact Hnodup].
      rewrite list_elem_of_In. intros Hin.
      specialize (Hfree k Hin). rewrite lookup_insert_eq in Hfree. discriminate.
    + intros k' [<-|Hin]; [exact Hk|].
      specialize (Hfree k' Hin).
      destruct (String.eqb k k') eqn:E.
      * apply String.eqb_eq in E. subst. rewrite lookup_insert_eq in Hfree. discriminate.
      * apply String.eqb_neq in E. rewrite lookup_insert_ne in Hfree by exact E.
        exact Hfree.
Qed.

(** X16.  A confirmed import of a document whose tasks have distinct
    string ids replaces the whole store: afterwards a key of the task
    table holds exactly the document's task with that id, the user table
    holds the document's user under ['user'], the guild table holds the
    document's guild or nothing, and nothing of the old store is left;
    the success alert is shown and the page reloads.  Declined, the same
    import changes nothing and shows nothing. *)
Theorem import_replaces_store (ts : list Task) (keys : list string)
  (user : UserStats) (guild0 : option Guild) (db : Store.DB) :
  map id ts = map Str keys -> NoDup keys ->
  (exists tasks',
     Store.handleImport
       (Some (Store.Document {| Store.doc_tasks := Some ts;
                                Store.doc_user := Some user;
                                Store.doc_guild := guild0 |})) true db
     = {| Store.db_after :=
            {| Store.tasks := tasks';
               Store.userStats := <["user" := user]> ∅;
               Store.guild := match guild0 with
                              | Some g => <[guild_id g := g]> ∅
                              | None => ∅
                              end |};
          Store.alerted := Some Store.ImportSucceeded;
          Store.reloaded := true |}
     /\ forall key, tasks' !! key = TaskDashboard.find_task ts key)
  /\ Store.handleImport
       (Some (Store.Document {| Store.doc_tasks := Some ts;
                                Store.doc_user := Some user;
                                Store.doc_guild := guild0 |})) false db
     = {| Store.db_after := db; Store.alerted := None; Store.reloaded := false |}.
Proof.
  intros Hids Hnodup. split; [|reflexivity].
  destruct (bulkAdd_some ts ∅ keys Hids Hnodup) as (m & Hm & Hlookup).
  { intros k _. apply lookup_empty. }
  exists m. split.
  - unfold Store.handleImport, Store.transaction, Store.replaceAll.
    cbn [Store.doc_tasks Store.doc_user Store.doc_guild Store.tasks Store.userStats
         Store.guild].
    rewrite Hm. reflexivity.
  - intros key. rewrite Hlookup.
    destruct (TaskDashboard.find_task ts key); [reflexivity | apply lookup_empty].
Qed.

Lemma import_replaces_store_witness :
  exists tasks',
    Store.db_after
      (Store.handleImport (Some (Store.Document Samples.save)) true Samples.emptyStore)
    = {| Store.tasks := tasks';
         Store.userStats := <["user" := Samples.veteran]> ∅;
         Store.guild := <["1700000000000" := Samples.party]> ∅ |}
    /\ tasks' !! "2" = Some (Examples.quest "2" 25 None)
    /\ tasks' !! "3" = None.
Proof.
  assert (Hnodup : NoDup ["1"; "2"]).
  { apply NoDup_cons. split; [rewrite list_elem_of_In; intros [H|[]]; discriminate|].
    apply NoDup_cons. split; [rewrite list_elem_of_In; intros []|]. constructor. }
  destruct (import_replaces_store
              [Examples.quest "1" 50 None; Examples.quest "2" 25 None] ["1"; "2"]
              Samples.veteran (Some Samples.party) Samples.emptyStore eq_refl Hnodup)
    as ((tasks' & Hrun & Hlookup) & _).
  exists tasks'. split; [|split].
  - change (Store.Document Samples.save)
      with (Store.Document
              {| Store.doc_tasks := Some [Examples.quest "1" 50 None;
                                          Examples.quest "2" 25 None];
                 Store.doc_user := Some Samples.veteran;
                 Store.doc_guild := Some Samples.party |}).
    rewrite Hrun. reflexivity.
  - rewrite Hlookup. reflexivity.
  - rewrite Hlookup. reflexivity.
Defined.

(** X17.  A confirmed import of a document in which two tasks share an
    id, or some task has no id (tasks with numeric ids set aside), fails
    as a whole: the failure alert is shown, the page is not reloaded and
    the store, which the transaction had already cleared, is what it was
    before. *)
Theorem import_rolls_back (ts : list Task) (user : UserStats)
  (guild0 : option Guild) (db : Store.DB) :
  Forall (fun t => typeof_number (id t) = false) ts ->
  ~ (exists keys, map id ts = map Str keys /\ NoDup keys) ->
  Store.handleImport
    (Some (Store.Document {| Store.doc_tasks := Some ts;
                             Store.doc_user := Some user;
                             Store.doc_guild := guild0 |})) true db
  = {| Store.db_after := db; Store.alerted := Some Store.ImportFailed;
       Store.reloaded := false |}.
Proof.
  intros _ Hbad.
  unfold Store.handleImport, Store.transaction, Store.replaceAll.
  cbn [Store.doc_tasks Store.doc_user Store.doc_guild Store.tasks].
  destruct (Store.bulkAdd ts ∅) as [m|] eqn:E; [|reflexivity].
  exfalso. apply Hbad.
  destruct (bulkAdd_keys ts ∅ m E) as (keys & Hids & Hnodup & _).
  exists keys. auto.
Qed.

Lemma import_rolls_back_witness :
  Store.handleImport (Some (Store.Document Samples.clash)) true Samples.emptyStore
  = {| Store.db_after := Samples.emptyStore; Store.alerted := Some Store.ImportFailed;
       Store.reloaded := false |}.
Proof.
  apply (import_rolls_back [Examples.quest "1" 50 None; Examples.quest "1" 25 None]
           Samples.veteran None Samples.emptyStore).
  { repeat constructor. }
  intros (keys & Hids & Hnodup).
  destruct keys as [|k1 [|k2 [|k3 keys]]]; try discriminate.
  simpl in Hids. injection Hids as <- <-.
  apply NoDup_cons in Hnodup. destruct Hnodup as [Hin _].
  apply Hin. rewrite list_elem_of_In. left. reflexivity.
Defined.

(** ** The object-store engine: the flush and the derived view *)

Section SyncProperties.

Variable StringToNumber : string -> number.
Variable NumberToString : number -> string.

Local Abbreviation derive := (Sync.derive StringToNumber NumberToString).
Local Abbreviation flush := (Sync.flush StringToNumber NumberToString).

Lemma minus_ints (a b : Z) :
  div (Coerce.minus StringToNumber (Num (int a)) (Num (int b))) (int 1000)
  = Fin ((inject_Z a - inject_Z b) / inject_Z 1000).
Proof.
  unfold Coerce.minus, Coerce.ToNumber, sub, int at 1 2.
  unfold div, int at 1. change (Qeq_bool (inject_Z 1000) 0) with false. reflexivity.
Qed.

Lemma derive_running (now l : Z) (t : Task) (s : Q) :
  truthy (isRunning t) = true -> timeSpent t = Num (Fin s) ->
  lastUpdated t = Num (int l) -> l <> 0%Z ->
  exists s',
    derive now t = Sync.with_spent t (Num (Fin s'))
    /\ s' == s + (if (l <? now)%Z then (inject_Z now - inject_Z l) / 1000 else 0).
Proof.
  intros Hrun Hspent Hlast Hl. unfold Sync.derive.
  rewrite Hrun, Hspent, Hlast, (truthy_int l Hl). cbn [andb].
  rewrite minus_ints, seconds_positive.
  destruct (l <? now)%Z.
  - destruct (plus_spent StringToNumber NumberToString s
                ((inject_Z now - inject_Z l) / inject_Z 1000)) as (s' & Hs' & Heq).
    exists s'. rewrite Hs'. auto.
  - destruct (plus_spent StringToNumber NumberToString s (inject_Z 0))
      as (s' & Hs' & Heq).
    exists s'. unfold int in Hs' |- *. rewrite Hs'. auto.
Qed.

Lemma flush_running (now l : Z) (t : Task) (s : Q) :
  truthy (isRunning t) = true -> timeSpent t = Num (Fin s) ->
  lastUpdated t = Num (int l) -> l <> 0%Z ->
  exists s',
    flush now t = GameLoop.with_timer t (Num (Fin s')) now
    /\ s' == s + (inject_Z now - inject_Z l) / 1000.
Proof.
  intros Hrun Hspent Hlast Hl. unfold Sync.flush.
  rewrite Hrun, Hspent, Hlast, (truthy_int l Hl). rewrite minus_ints.
  destruct (plus_spent StringToNumber NumberToString s
              ((inject_Z now - inject_Z l) / inject_Z 1000)) as (s' & Hs' & Heq).
  exists s'. rewrite Hs'. auto.
Qed.


End SyncProperties.


(** ** The object-store engine: experience without a user row *)

(** X19.  In the object-store engine [addExp] only updates the user row:
    with no row in the table it computes from [INITIAL_USER] and records
    nothing, so the award is lost; with a row it records what the
    localStorage engine computes from the same state, as long as the new
    total is not NaN. *)
Theorem addExp_needs_row (amount : number) (u : UserStats) :
  Spec.nonneg amount ->
  (exists fuel0, forall fuel, (fuel0 <= fuel)%nat ->
     EngineDB.addExp fuel None amount = Some None)
  /\ (forall fuel,
        isNaN (add (currentExp u) amount) = false ->
        EngineDB.addExp fuel (Some u) amount
        = match Engine.addExp fuel u amount with
          | Some u' => Some (Some u')
          | None => None
          end).
Proof.
  intros Hamount. split.
  - destruct amount as [|a]; [contradiction|]. simpl in Hamount.
    destruct (levelUp_total (inject_Z 0 + a) (int 1) (inject_Z 100))
      as (fuel0 & c' & l' & n' & Hrun & _).
    { change (inject_Z 100) with 100%Q. lra. }
    { change (inject_Z 0) with 0%Q. lra. }
    exists fuel0. intros fuel Hfuel.
    unfold EngineDB.addExp, EngineDB.userStats, EngineDB.update, Engine.INITIAL_USER.
    cbn [currentExp level nextLevelExp].
    change (add (int 0) (Fin a)) with (Fin (inject_Z 0 + a)).
    change (int 100) with (Fin (inject_Z 100)).
    rewrite (Hrun fuel Hfuel). reflexivity.
  - intros fuel Hsum. unfold EngineDB.addExp, Engine.addExp. simpl.
    rewrite Hsum.
    destruct (Engine.levelUp fuel (add (currentExp u) amount) (level u)
                             (nextLevelExp u)) as [[[c l] n]|]; reflexivity.
Qed.

Lemma addExp_needs_row_witness :
  exists fuel0, EngineDB.addExp fuel0 None (int 50) = Some None.
Proof.
  assert (H : Spec.nonneg (int 50)) by Qconst.
  destruct (addExp_needs_row (int 50) Engine.INITIAL_USER H) as [(fuel0 & Hrun) _].
  exists fuel0. apply Hrun. apply Nat.le_refl.
Defined.

(** ** Starting and pausing a stopwatch *)

Lemma toggle_lookup (id0 : string) (now : Z) (prev : list Task) (i : nat) (t : Task) :
  prev !! i = Some t -> is_string (id t) id0 = true ->
  Board.toggleTimer id0 now prev !! i = Some (Board.with_toggle t now).
Proof.
  intros Hi Hid. unfold Board.toggleTimer.
  rewrite (lookup_map_update (fun t => Board.with_toggle t now)
             (fun t => is_string (id t) id0) prev i t Hi).
  rewrite Hid. reflexivity.
Qed.



(** ** The progress bar of a session *)

Lemma Qle_bool_false (x y : Q) : Qle_bool x y = false -> y < x.
Proof.
  intros H. apply Qnot_le_lt. intros Hle. apply Qle_bool_iff in Hle. congruence.
Qed.

Lemma div_ints (a b : Z) :
  b <> 0%Z -> div (int a) (int b) = Fin (inject_Z a / inject_Z b).
Proof.
  intros Hb. unfold div, int. rewrite Qeq_bool_inject_Z_0 by exact Hb.
  reflexivity.
Qed.


